(** * convert_ipynb_to_txt: a shallow embedding and its specification

    The development follows [Helper Scripts/convert_ipynb_to_txt.py]:
    - [PyStr]: Python text ([str]) as a list of Unicode code points, with
      the built-ins the script calls ([rstrip], [join], decimal formatting);
    - [json], the values produced by [json.load], and the dynamic
      operations the script performs on them ([.get], truthiness, [or],
      iteration, [==] against a string literal, f-string formatting);
    - [extract_text_from_cell], [convert_notebook], [find_ipynb_files] and
      [main], over an in-memory file system;
    - the properties of the rendering and of the batch driver.

    What belongs to the Python runtime and not to the script ([repr] of a
    string or of a float, [str.lower], [json.loads], [os.path], the text of
    an exception message) is collected in the class [Runtime].

    Modelling choices:
    - a text file holds text: decoding the input as UTF-8 is left out;
      encoding the output is kept through [encodable], since a lone
      surrogate makes [out.write] raise;
    - a path names a node of the file system as it is spelled, and a
      world holds the nodes a run can reach, without their having to form
      a whole tree; [os.makedirs] creates the missing ancestors of a
      directory and enters each new directory in the listing of its
      parent; [io.open] looks at the path it is given only: the script
      reads the listings in [find_ipynb_files], before it writes anything;
    - [print] raises when standard output cannot encode the line;
    - [main] is the part of [main(argv)] that follows
      [args = parser.parse_args(argv)]; [run_script] puts the argument
      parser before it and the exit status of the process after it. *)

From Stdlib Require Import ZArith NArith String Ascii DecimalString.
From Stdlib Require Import PrimFloat.
From stdpp Require Import base option list sorting gmap.

Set Default Proof Using "Type".
Set Warnings "-register-all".

(** ** Python text *)

Module PyStr.

(** A [str] is a sequence of code points. *)
Abbreviation str := (list N).

(** Source literals are ASCII. *)
Definition lit (s : string) : str :=
  map N_of_ascii (list_ascii_of_string s).
Arguments lit s%_string.

(** [str.isspace] on one code point: the code points CPython treats as
    whitespace. *)
Definition is_space (c : N) : bool :=
  ((9 <=? c) && (c <=? 13) || (28 <=? c) && (c <=? 32)
   || (c =? 133) || (c =? 160) || (c =? 5760)
   || (8192 <=? c) && (c <=? 8202)
   || (c =? 8232) || (c =? 8233) || (c =? 8239) || (c =? 8287)
   || (c =? 12288))%N.

(** [s.rstrip()]: drop the trailing run of whitespace. *)
Fixpoint rstrip (s : str) : str :=
  match s with
  | [] => []
  | c :: r =>
      match rstrip r with
      | [] => if is_space c then [] else [c]
      | r' => c :: r'
      end
  end.

(** [sep.join(parts)] for a list of strings. *)
Fixpoint join (sep : str) (parts : list str) : str :=
  match parts with
  | [] => []
  | [p] => p
  | p :: ps => p ++ sep ++ join sep ps
  end.

(** The newline character. *)
Definition NL : str := [10%N].

(** ["\n".join(parts)] *)
Definition nl_join (parts : list str) : str := join NL parts.

(** [str(n)] for the counters of [enumerate] and for [int] values. *)
Definition dec (n : nat) : str := lit (NilZero.string_of_uint (Nat.to_uint n)).
Definition dec_Z (z : Z) : str := lit (NilZero.string_of_int (Z.to_int z)).

(** [c * n] *)
Definition repeat_char (c : N) (n : nat) : str := replicate n c.

(** [s.endswith(suffix)] *)
Definition endswith (s suffix : str) : bool :=
  bool_decide (drop (length s - length suffix) s = suffix).

(** Lone surrogates cannot be encoded as UTF-8. *)
Definition is_surrogate (c : N) : bool := ((55296 <=? c) && (c <=? 57343))%N.
Definition encodable (s : str) : bool := forallb (fun c => negb (is_surrogate c)) s.

End PyStr.
Export PyStr.

(** ** Exceptions and fallible computations *)

(** The exception classes the script can meet; all of them derive from
    [Exception]. *)
Inductive exn :=
| AttributeError      (* [.get] or [.rstrip] on a value that has none *)
| TypeError           (* iterating or joining a value that is not iterable *)
| JSONDecodeError     (* [json.load] on text that is not JSON *)
| FileNotFoundError
| FileExistsError
| IsADirectoryError
| NotADirectoryError
| UnicodeEncodeError.

Inductive result (A : Type) :=
| Ok (a : A)
| Raise (e : exn).
Arguments Ok {A} a.
Arguments Raise {A} e.

#[global] Instance result_ret : MRet result := fun A a => Ok a.
#[global] Instance result_bind : MBind result := fun A B f m =>
  match m with
  | Ok a => f a
  | Raise e => Raise e
  end.

(** [[f(x) for x in l]] where [f] may raise. *)
Fixpoint mapR {A B} (f : A -> result B) (l : list A) : result (list B) :=
  match l with
  | [] => Ok []
  | x :: r => y ← f x; ys ← mapR f r; Ok (y :: ys)
  end.

(** ** JSON values as Python objects *)

Inductive json :=
| JNull
| JBool (b : bool)
| JInt (z : Z)
| JFloat (f : float)
| JStr (s : str)
| JArr (items : list json)
| JObj (members : list (str * json)).

(** [d[k]] on the members of a dict, kept in insertion order. *)
Fixpoint assoc (k : str) (kvs : list (str * json)) : option json :=
  match kvs with
  | [] => None
  | (k', v) :: r => if decide (k' = k) then Some v else assoc k r
  end.

(** The members of a dict without the key [k]. *)
Definition without_key (k : str) (kvs : list (str * json)) : list (str * json) :=
  filter (fun kv => kv.1 <> k) kvs.

(** [bool(v)] *)
Definition truthy (v : json) : bool :=
  match v with
  | JNull => false
  | JBool b => b
  | JInt z => negb (z =? 0)%Z
  | JFloat f => negb (PrimFloat.eqb f 0%float)
  | JStr s => negb (bool_decide (s = []))
  | JArr l => negb (bool_decide (l = []))
  | JObj kvs => negb (bool_decide (kvs = []))
  end.

(** [v or d] *)
Definition py_or (v d : json) : json := if truthy v then v else d.

(** [v.get(k, default)]: only a dict has [get]. *)
Definition dict_get (v : json) (k : str) (dflt : json) : result json :=
  match v with
  | JObj kvs => Ok (default dflt (assoc k kvs))
  | _ => Raise AttributeError
  end.

(** [v == s] for a string literal [s]. *)
Definition eq_str (v : json) (s : str) : bool :=
  match v with
  | JStr t => bool_decide (t = s)
  | _ => false
  end.

(** [iter(v)]: the items a [for] loop, [enumerate] or [join] sees. *)
Definition iter (v : json) : result (list json) :=
  match v with
  | JArr l => Ok l
  | JStr s => Ok (map (fun c => JStr [c]) s)
  | JObj kvs => Ok (map (fun kv => JStr kv.1) kvs)
  | _ => Raise TypeError
  end.

(** The item of a [join] must be a [str]. *)
Definition as_str (v : json) : result str :=
  match v with
  | JStr s => Ok s
  | _ => Raise TypeError
  end.

(** ["".join(v)] *)
Definition empty_join (v : json) : result str :=
  items ← iter v; frags ← mapR as_str items; Ok (concat frags).

(** [line.rstrip()]: only a [str] has [rstrip]. *)
Definition rstrip_line (v : json) : result str :=
  match v with
  | JStr s => Ok (rstrip s)
  | _ => Raise AttributeError
  end.

(** ** The Python runtime *)

(** The parsed command line. *)
Record args := {
  path : str;
  outdir : option str;
  overwrite : bool
}.

(** What [parser.parse_args] makes of the command line: the parsed
    arguments, or, for [--help] and for a command line it rejects, the
    lines it prints on standard output and the status it exits with (the
    usage message of a rejected command line goes to standard error,
    which the world does not hold). *)
Inductive parsed :=
| Parsed (a : args)
| ParserExit (lines : list str) (status : Z).

Class Runtime := {
  (** [repr] of a [str] and of a [float] *)
  repr_str : str -> str;
  repr_float : float -> str;
  (** [str.lower] *)
  lower : str -> str;
  (** [json.loads] on the text of a file *)
  json_loads : str -> option json;
  (** [os.path.basename], [os.path.splitext(p)[0]], [os.path.join] *)
  basename : str -> str;
  splitext_root : str -> str;
  path_join : str -> str -> str;
  (** [os.path.dirname(os.path.abspath(__file__))] *)
  script_dir : str;
  (** [str(e)] for a caught exception *)
  exn_message : exn -> str;
  (** the proper ancestors of a path, outermost first: the directories
      [os.makedirs] creates before the directory itself; and the directory
      the outermost of them is looked up in (the current directory for a
      relative path, the root for an absolute one) *)
  ancestors : str -> list str;
  anchor : str -> str;
  (** whether [sys.stdout] can encode a line *)
  printable : str -> bool;
  (** [parser.parse_args] on [sys.argv[1:]] *)
  parse_args : list str -> parsed
}.

Section Rendering.
Context `{Runtime}.

(** [repr(v)] *)
Fixpoint py_repr (v : json) : str :=
  match v with
  | JNull => lit "None"
  | JBool true => lit "True"
  | JBool false => lit "False"
  | JInt z => dec_Z z
  | JFloat f => repr_float f
  | JStr s => repr_str s
  | JArr l => lit "[" ++ join (lit ", ") (map py_repr l) ++ lit "]"
  | JObj kvs =>
      lit "{"
      ++ join (lit ", ") (map (fun kv => repr_str kv.1 ++ lit ": " ++ py_repr kv.2) kvs)
      ++ lit "}"
  end.

(** [f"{v}"] *)
Definition py_format (v : json) : str :=
  match v with
  | JStr s => s
  | _ => py_repr v
  end.

(** *** extract_text_from_cell *)

(** The body of the loop over [enumerate(outputs, start=1)]: [out_lines]
    is the list the loop appends to. *)
Definition output_step (out_lines : list str) (oi : nat) (out : json)
  : result (list str) :=
  out_type ← dict_get out (lit "output_type") (JStr (lit "output"));
  let out_lines :=
    out_lines ++ [lit "[" ++ dec oi ++ lit "] output_type: " ++ py_format out_type] in
  text ← dict_get out (lit "text") JNull;
  out_lines ←
    (if truthy text
     then s ← empty_join text; Ok (out_lines ++ [rstrip s])
     else Ok out_lines);
  data ← dict_get out (lit "data") JNull;
  out_lines ←
    match py_or data (JObj []) with
    | JObj d =>
        match assoc (lit "text/plain") d with
        | Some plain => s ← empty_join plain; Ok (out_lines ++ [rstrip s])
        | None => Ok out_lines
        end
    | _ => Ok out_lines
    end;
  if eq_str out_type (lit "error")
  then
    tb ← dict_get out (lit "traceback") JNull;
    items ← iter (py_or tb (JArr []));
    lines ← mapR rstrip_line items;
    Ok (out_lines ++ lines)
  else Ok out_lines.

Fixpoint outputs_loop (out_lines : list str) (oi : nat) (outputs : list json)
  : result (list str) :=
  match outputs with
  | [] => Ok out_lines
  | out :: rest =>
      out_lines ← output_step out_lines oi out;
      outputs_loop out_lines (S oi) rest
  end.

Definition extract_text_from_cell (cell : json) : result str :=
  cell_type ← dict_get cell (lit "cell_type") (JStr (lit "unknown"));
  src ← dict_get cell (lit "source") (JArr []);
  source ← empty_join (py_or src (JArr []));
  let parts := [lit "Cell type: " ++ py_format cell_type] in
  parts ←
    (if eq_str cell_type (lit "markdown")
     then Ok (parts ++ [lit "-- Markdown --"] ++ [rstrip source])
     else if eq_str cell_type (lit "code")
     then
       let parts := parts ++ [lit "-- Code --"] ++ [rstrip source] in
       outs ← dict_get cell (lit "outputs") (JArr []);
       let outputs := py_or outs (JArr []) in
       if truthy outputs
       then
         items ← iter outputs;
         out_lines ← outputs_loop [lit "-- Outputs --"] 1 items;
         Ok (parts ++ [nl_join out_lines])
       else Ok parts
     else Ok (parts ++ [rstrip source]));
  Ok (nl_join parts).

End Rendering.

(** ** State and exceptions

    A computation over a state [S] that returns a value or raises; the
    state it leaves behind is kept in both cases. *)

Definition prog (S A : Type) : Type := S -> S * result A.

#[global] Instance prog_ret {S} : MRet (prog S) := fun A a s => (s, Ok a).
#[global] Instance prog_bind {S} : MBind (prog S) := fun A B f m s =>
  match m s with
  | (s', Ok a) => f a s'
  | (s', Raise e) => (s', Raise e)
  end.

(** A pure fallible step inside a stateful computation. *)
Definition lift {S A} (r : result A) : prog S A := fun s => (s, r).

(** Reading the state. *)
Definition gets {S A} (f : S -> A) : prog S A := fun s => (s, Ok (f s)).

(** [try: body except Exception as e: handler(e)] *)
Definition try_except {S A} (body : prog S A) (handler : exn -> prog S A)
  : prog S A := fun s =>
  match body s with
  | (s', Raise e) => handler e s'
  | r => r
  end.

(** ** The file system and standard output *)

Inductive node :=
| File (content : str)         (* a text file *)
| Dir (names : list str).      (* a directory and what [os.listdir] returns *)

Record world := {
  fs : gmap (list N) node;
  stdout : list str
}.

Definition isfile (w : world) (p : str) : bool :=
  match fs w !! p with
  | Some (File _) => true
  | _ => false
  end.

Definition isdir (w : world) (p : str) : bool :=
  match fs w !! p with
  | Some (Dir _) => true
  | _ => false
  end.

(** [os.path.exists] *)
Definition path_exists (w : world) (p : str) : bool :=
  match fs w !! p with
  | Some _ => true
  | None => false
  end.

(** [os.listdir] on a directory *)
Definition listdir (w : world) (p : str) : list str :=
  match fs w !! p with
  | Some (Dir names) => names
  | _ => []
  end.

(** A new entry in the listing of its parent directory. *)
Definition add_entry (parent name : str) (m : gmap (list N) node)
  : gmap (list N) node :=
  match m !! parent with
  | Some (Dir names) => <[parent := Dir (names ++ [name])]> m
  | _ => m
  end.

(** [io.open(p, "r", encoding="utf-8")] followed by reading the text. *)
Definition read_text (w : world) (p : str) : result str :=
  match fs w !! p with
  | Some (File content) => Ok content
  | Some (Dir _) => Raise IsADirectoryError
  | None => Raise FileNotFoundError
  end.

(** [io.open(p, "w", encoding="utf-8")]: the file is created or truncated. *)
Definition open_w (p : str) : prog world unit := fun w =>
  match fs w !! p with
  | Some (Dir _) => (w, Raise IsADirectoryError)
  | _ => ({| fs := <[p := File []]> (fs w); stdout := stdout w |}, Ok tt)
  end.

(** [out.write(chunk)] on the open file: the state is the list of chunks
    written so far. A chunk that cannot be encoded is not written. *)
Definition out_write (chunk : str) : prog (list str) unit := fun out =>
  if encodable chunk then (out ++ [chunk], Ok tt)
  else (out, Raise UnicodeEncodeError).

(** The body of [with io.open(p, "w") as out]: when the block is left,
    normally or by an exception, the file holds what was written. *)
Definition with_out {A} (p : str) (body : prog (list str) A) : prog world A :=
  fun w =>
  let '(out, r) := body [] in
  ({| fs := <[p := File (concat out)]> (fs w); stdout := stdout w |}, r).

(** The world after a line has been printed. *)
Definition printed (line : str) (w : world) : world :=
  {| fs := fs w; stdout := stdout w ++ [line] |}.

(** [sorted] on strings compares code points lexicographically. *)
Fixpoint str_leb (a b : str) : bool :=
  match a, b with
  | [], _ => true
  | _ :: _, [] => false
  | x :: a', y :: b' => (x <? y)%N || (x =? y)%N && str_leb a' b'
  end.

Definition str_le (a b : str) : Prop := Is_true (str_leb a b).

#[global] Instance str_le_dec : RelDecision str_le :=
  fun a b => Is_true_dec (str_leb a b).

Definition sorted (l : list str) : list str := merge_sort str_le l.

(** ["\n" + ("-" * 80) + "\n"] *)
Definition CELL_SEPARATOR : str := NL ++ repeat_char 45%N 80 ++ NL.

Section Program.
Context `{Runtime}.

(** [print(line)]: nothing is printed when the line cannot be encoded. *)
Definition print (line : str) : prog world unit := fun w =>
  if printable line then (printed line w, Ok tt)
  else (w, Raise UnicodeEncodeError).

(** The directories of [chain], the first one inside [parent] and each
    other one inside the one before it: one that exists is entered, one
    that is missing is created and entered in the listing of its parent,
    and a regular file in the way stops the walk. *)
Fixpoint mkdir_chain (parent : str) (chain : list str) : prog world unit :=
  match chain with
  | [] => mret tt
  | d :: rest => fun w =>
      match fs w !! d with
      | Some (Dir _) => mkdir_chain d rest w
      | Some (File _) => (w, Raise NotADirectoryError)
      | None =>
          mkdir_chain d rest
            {| fs := <[d := Dir []]> (add_entry parent (basename d) (fs w));
               stdout := stdout w |}
      end
  end.

(** [os.makedirs(p, exist_ok=True)]: an existing directory is accepted, an
    existing regular file is not; a missing directory is created after
    its missing ancestors. [os.makedirs] climbs to the nearest ancestor
    that exists and creates the directories below it; on a file tree,
    where nothing lies under a missing directory, walking down from the
    outermost ancestor creates the same directories and meets the same
    regular file in the way. *)
Definition makedirs (p : str) : prog world unit := fun w =>
  match fs w !! p with
  | Some (Dir _) => (w, Ok tt)
  | Some (File _) => (w, Raise FileExistsError)
  | None => mkdir_chain (anchor p) (ancestors p ++ [p]) w
  end.

(** *** convert_notebook *)

Fixpoint cells_loop (i : nat) (cells : list json) : prog (list str) unit :=
  match cells with
  | [] => mret tt
  | cell :: rest =>
      out_write (lit "Cell " ++ dec i ++ NL);;
      block ← lift (extract_text_from_cell cell);
      out_write block;;
      out_write CELL_SEPARATOR;;
      cells_loop (S i) rest
  end.

(** The statements under [with io.open(txt_path, "w") as out]. *)
Definition write_notebook (ipynb_path : str) (nb cells : json)
  : prog (list str) unit :=
  out_write (lit "Notebook: " ++ basename ipynb_path ++ NL);;
  metadata ← lift (dict_get nb (lit "metadata") (JObj []));
  kernelspec ← lift (dict_get metadata (lit "kernelspec") (JObj []));
  out_write (lit "Kernelspec: " ++ py_format kernelspec ++ NL);;
  out_write CELL_SEPARATOR;;
  items ← lift (iter cells);
  cells_loop 1 items.

(** [json.load(f)] *)
Definition json_load (text : str) : result json :=
  match json_loads text with
  | Some v => Ok v
  | None => Raise JSONDecodeError
  end.

Definition convert_notebook (ipynb_path txt_path : str) : prog world unit :=
  text ← (fun w => (w, read_text w ipynb_path));
  nb ← lift (json_load text);
  cells ← lift (dict_get nb (lit "cells") (JArr []));
  let cells := py_or cells (JArr []) in
  open_w txt_path;;
  with_out txt_path (write_notebook ipynb_path nb cells).

(** *** find_ipynb_files *)

Definition is_ipynb (name : str) : bool := endswith (lower name) (lit ".ipynb").

Definition find_ipynb_files (w : world) (p : str) : list str :=
  if isfile w p then
    if is_ipynb p then [p] else []
  else if isdir w p then
    map (path_join p) (filter (fun name => is_ipynb name = true) (sorted (listdir w p)))
  else [].

(** *** main *)

Fixpoint files_loop (outdir : str) (overwrite : bool) (paths : list str)
  : prog world unit :=
  match paths with
  | [] => mret tt
  | ipynb :: rest =>
      let base := splitext_root (basename ipynb) in
      let target_dir := outdir in
      makedirs target_dir;;
      let txt_path := path_join target_dir (base ++ lit ".txt") in
      present ← gets (fun w => path_exists w txt_path);
      (if present && negb overwrite
       then
         print (lit "Skipping existing file (use --overwrite to replace): " ++ txt_path)
       else
         try_except
           (convert_notebook ipynb txt_path;;
            print (lit "Converted: " ++ ipynb ++ lit " -> " ++ txt_path))
           (fun e =>
              print (lit "Failed to convert " ++ ipynb ++ lit ": " ++ exn_message e)));;
      files_loop outdir overwrite rest
  end.

(** [args.outdir or script_dir] *)
Definition resolve_outdir (a : args) : str :=
  match outdir a with
  | Some (c :: d) => c :: d
  | _ => script_dir
  end.

(** The statements of [main] after [args = parser.parse_args(argv)];
    the result is the value [main] returns. *)
Definition main (a : args) : prog world Z :=
  paths ← gets (fun w => find_ipynb_files w (path a));
  match paths with
  | [] =>
      print (lit "No .ipynb files found at: " ++ path a);;
      mret 2%Z
  | _ :: _ =>
      files_loop (resolve_outdir a) (overwrite a) paths;;
      mret 0%Z
  end.

(** [raise SystemExit(main())]: the exit status of the process. The
    argument parser may exit first, with its own status; an exception
    that leaves [main] ends the interpreter with status 1. *)
Definition run_script (argv : list str) (w : world) : world * Z :=
  match parse_args argv with
  | ParserExit lines status =>
      ({| fs := fs w; stdout := stdout w ++ lines |}, status)
  | Parsed a =>
      match main a w with
      | (w', Ok status) => (w', status)
      | (w', Raise _) => (w', 1%Z)
      end
  end.

End Program.


(** ** The data model of the specification

    The typed view of a notebook: what a JSON object has to look like to
    be an Output or a Cell, and the text the specification assigns to it. *)

(** A sequence of text fragments: a list of strings, or one string seen as
    the sequence of its characters. *)
Inductive is_frags : json -> list str -> Prop :=
| frags_list (l : list str) : is_frags (JArr (JStr <$> l)) l
| frags_str (s : str) : is_frags (JStr s) ((fun c => [c]) <$> s).

(** An optional field of fragments: absent and null both mean "none". *)
Inductive opt_frags : option json -> option (list str) -> Prop :=
| opt_absent : opt_frags None None
| opt_null : opt_frags (Some JNull) None
| opt_present (v : json) (l : list str) :
    is_frags v l -> opt_frags (Some v) (Some l).

Definition is_mapping (v : json) : Prop := exists d, v = JObj d.

(** The [text/plain] entry of the [data] field. *)
Inductive data_plain : option json -> option (list str) -> Prop :=
| data_absent : data_plain None None
| data_not_mapping (v : json) : ~ is_mapping v -> data_plain (Some v) None
| data_without_plain (d : list (str * json)) :
    assoc (lit "text/plain") d = None -> data_plain (Some (JObj d)) None
| data_with_plain (d : list (str * json)) (v : json) (l : list str) :
    assoc (lit "text/plain") d = Some v -> is_frags v l ->
    data_plain (Some (JObj d)) (Some l).

(** A field holding a string, with a default when the key is absent. *)
Inductive str_field (dflt : str) : option json -> str -> Prop :=
| field_absent : str_field dflt None dflt
| field_str (s : str) : str_field dflt (Some (JStr s)) s.

Record Output := {
  o_type : str;
  o_text : option (list str);
  o_plain : option (list str);
  o_traceback : option (list str)
}.

Record is_output (m : list (str * json)) (o : Output) : Prop := {
  output_has_type : str_field (lit "output") (assoc (lit "output_type") m) (o_type o);
  output_has_text : opt_frags (assoc (lit "text") m) (o_text o);
  output_has_data : data_plain (assoc (lit "data") m) (o_plain o);
  output_has_traceback : opt_frags (assoc (lit "traceback") m) (o_traceback o)
}.

Record Cell := {
  c_type : str;
  c_source : option (list str);
  c_outputs : list Output
}.

(** The [outputs] field: absent, null, or a list of output objects. *)
Inductive has_outputs : option json -> list Output -> Prop :=
| outputs_absent : has_outputs None []
| outputs_null : has_outputs (Some JNull) []
| outputs_list (ms : list (list (str * json))) (os : list Output) :
    Forall2 is_output ms os -> has_outputs (Some (JArr (JObj <$> ms))) os.

Record is_cell (m : list (str * json)) (c : Cell) : Prop := {
  cell_has_type : str_field (lit "unknown") (assoc (lit "cell_type") m) (c_type c);
  cell_has_source : opt_frags (assoc (lit "source") m) (c_source c);
  cell_has_outputs : has_outputs (assoc (lit "outputs") m) (c_outputs c)
}.

(** The concatenated source, trailing whitespace trimmed. *)
Definition source_text (c : Cell) : str := rstrip (concat (default [] (c_source c))).

(** The index line of an output. *)
Definition index_line (oi : nat) (out_type : str) : str :=
  lit "[" ++ dec oi ++ lit "] output_type: " ++ out_type.

Definition plain_lines (o : Output) : list str :=
  match o_plain o with
  | Some l => [rstrip (concat l)]
  | None => []
  end.

Definition traceback_lines (o : Output) : list str :=
  if decide (o_type o = lit "error")
  then rstrip <$> default [] (o_traceback o)
  else [].

(** The text line of an output as the script emits it: a [text] without
    fragments gives no line. *)
Definition text_lines (o : Output) : list str :=
  match o_text o with
  | Some (f :: l) => [rstrip (concat (f :: l))]
  | _ => []
  end.

(** The text line as the specification words it: a line whenever [text]
    is present. *)
Definition text_lines_when_present (o : Output) : list str :=
  match o_text o with
  | Some l => [rstrip (concat l)]
  | None => []
  end.

Definition output_lines (oi : nat) (o : Output) : list str :=
  [index_line oi (o_type o)] ++ text_lines o ++ plain_lines o ++ traceback_lines o.

Definition output_lines_when_present (oi : nat) (o : Output) : list str :=
  [index_line oi (o_type o)]
  ++ text_lines_when_present o ++ plain_lines o ++ traceback_lines o.

(** The lines of the outputs, numbered from [oi]. *)
Fixpoint outputs_lines (oi : nat) (os : list Output) : list str :=
  match os with
  | [] => []
  | o :: rest => output_lines oi o ++ outputs_lines (S oi) rest
  end.

Fixpoint outputs_lines_when_present (oi : nat) (os : list Output) : list str :=
  match os with
  | [] => []
  | o :: rest =>
      output_lines_when_present oi o ++ outputs_lines_when_present (S oi) rest
  end.

(** The block of a code cell, given the lines of its outputs section. *)
Definition code_block (c : Cell) (section_lines : list str) : str :=
  nl_join
    ([lit "Cell type: code"; lit "-- Code --"; source_text c]
     ++ match c_outputs c with
        | [] => []
        | _ :: _ => [nl_join (lit "-- Outputs --" :: section_lines)]
        end).

Definition markdown_block (c : Cell) : str :=
  nl_join [lit "Cell type: markdown"; lit "-- Markdown --"; source_text c].

Definition other_block (c : Cell) : str :=
  nl_join [lit "Cell type: " ++ c_type c; source_text c].

Definition cell_block (c : Cell) : str :=
  if decide (c_type c = lit "markdown") then markdown_block c
  else if decide (c_type c = lit "code") then code_block c (outputs_lines 1 (c_outputs c))
  else other_block c.

(** The [Cell N] line. *)
Definition cell_header (i : nat) : str := lit "Cell " ++ dec i ++ NL.

Definition is_digit (c : N) : bool := ((48 <=? c) && (c <=? 57))%N.

(** A chunk of the output that is a [Cell N] header: [Cell ] followed by
    a digit. *)
Definition is_cell_header (chunk : str) : bool :=
  bool_decide (take 5 chunk = lit "Cell ")
  && match drop 5 chunk with
     | d :: _ => is_digit d
     | [] => false
     end.

(** [text.split("\n")]: the lines of a text. *)
Fixpoint split_lines (s : str) : list str :=
  match s with
  | [] => [[]]
  | c :: r =>
      if (c =? 10)%N then [] :: split_lines r
      else match split_lines r with
           | l :: ls => (c :: l) :: ls
           | [] => [[c]]
           end
  end.

(** A line of the form [Cell N]: [Cell ] followed by decimal digits only. *)
Definition is_header_line (l : str) : bool :=
  bool_decide (take 5 l = lit "Cell ")
  && negb (bool_decide (drop 5 l = []))
  && forallb is_digit (drop 5 l).

(** The [Cell N] lines of a text, in order. *)
Definition header_lines (text : str) : list str :=
  filter (fun l => is_header_line l = true) (split_lines text).

(** The chunks written for the cells, numbered from [i]. *)
Fixpoint cell_chunks (i : nat) (blocks : list str) : list str :=
  match blocks with
  | [] => []
  | b :: rest => [cell_header i; b; CELL_SEPARATOR] ++ cell_chunks (S i) rest
  end.

(** The [kernelspec] value of a notebook object: an empty mapping when
    [metadata] or [kernelspec] is absent. *)
Inductive has_kernelspec : list (str * json) -> json -> Prop :=
| kernelspec_no_metadata (m : list (str * json)) :
    assoc (lit "metadata") m = None -> has_kernelspec m (JObj [])
| kernelspec_of_metadata (m md : list (str * json)) :
    assoc (lit "metadata") m = Some (JObj md) ->
    has_kernelspec m (default (JObj []) (assoc (lit "kernelspec") md)).

(** The [cells] array of a notebook object. *)
Inductive has_cells : list (str * json) -> list json -> Prop :=
| cells_absent (m : list (str * json)) :
    assoc (lit "cells") m = None -> has_cells m []
| cells_null (m : list (str * json)) :
    assoc (lit "cells") m = Some JNull -> has_cells m []
| cells_array (m : list (str * json)) (cs : list json) :
    assoc (lit "cells") m = Some (JArr cs) -> has_cells m cs.

Section Specification.
Context `{Runtime}.

Definition header_chunks (name : str) (kernelspec : json) : list str :=
  [lit "Notebook: " ++ name ++ NL;
   lit "Kernelspec: " ++ py_format kernelspec ++ NL;
   CELL_SEPARATOR].

(** The chunks of a whole document, and its text. *)
Definition rendered_chunks (name : str) (kernelspec : json) (blocks : list str)
  : list str :=
  header_chunks name kernelspec ++ cell_chunks 1 blocks.

Definition rendered_text (name : str) (kernelspec : json) (blocks : list str) : str :=
  concat (rendered_chunks name kernelspec blocks).

(** The output file of a notebook: its base name without extension, with
    [.txt], in the output directory. *)
Definition target_path (outdir ipynb : str) : str :=
  path_join outdir (splitext_root (basename ipynb) ++ lit ".txt").

(** The line the batch prints for one notebook: skipped, converted, or
    failed with the message of the exception. *)
Definition file_report (outdir ipynb line : str) : Prop :=
  line = lit "Skipping existing file (use --overwrite to replace): "
         ++ target_path outdir ipynb
  \/ line = lit "Converted: " ++ ipynb ++ lit " -> " ++ target_path outdir ipynb
  \/ exists e, line = lit "Failed to convert " ++ ipynb ++ lit ": " ++ exn_message e.

End Specification.

(** ** A sample runtime and sample inputs

    One runtime to evaluate the script on concrete inputs: POSIX paths,
    ASCII case folding, and a [json_loads] that knows the sample documents
    below. [repr_str] quotes with single quotes, which is what [repr] does
    on text without quotes, backslashes or control characters. *)

Module Sample.

Fixpoint rfind (c : N) (s : str) : option nat :=
  match s with
  | [] => None
  | x :: r =>
      match rfind c r with
      | Some i => Some (S i)
      | None => if (x =? c)%N then Some 0 else None
      end
  end.

(** [posixpath.basename] *)
Definition posix_basename (p : str) : str :=
  match rfind 47%N p with
  | Some i => drop (S i) p
  | None => p
  end.

(** [posixpath.splitext(p)[0]] *)
Definition posix_splitext_root (p : str) : str :=
  match rfind 46%N p with
  | None => p
  | Some d =>
      let start := match rfind 47%N p with Some i => S i | None => 0 end in
      if existsb (fun c => negb (c =? 46)%N) (take (d - start) (drop start p))
      then take d p
      else p
  end.

(** [posixpath.join] of two components *)
Definition posix_join (a b : str) : str :=
  match b with
  | 47%N :: _ => b
  | _ => if bool_decide (a = []) || endswith a (lit "/") then a ++ b
         else a ++ lit "/" ++ b
  end.

Definition ascii_lower (s : str) : str :=
  map (fun c => if (65 <=? c)%N && (c <=? 90)%N then (c + 32)%N else c) s.

(** A JSON string token. *)
Definition quoted (s : string) : str := [34%N] ++ lit s ++ [34%N].

(** An empty notebook document. *)
Definition empty_text : str := lit "{}".
Definition empty_nb : json := JObj [].

(** A markdown cell. *)
Definition markdown_members : list (str * json) :=
  [(lit "cell_type", JStr (lit "markdown"));
   (lit "source", JArr (JStr <$> [lit "# Title" ++ NL; lit "body"]))].
Definition markdown_cell : json := JObj markdown_members.

(** A code cell with one stream output, as JSON and in the typed view. *)
Definition stream_members : list (str * json) :=
  [(lit "output_type", JStr (lit "stream"));
   (lit "text", JArr (JStr <$> [lit "1" ++ NL]))].
Definition stream_typed : Output :=
  {| o_type := lit "stream"; o_text := Some [lit "1" ++ NL];
     o_plain := None; o_traceback := None |}.

Definition code_members : list (str * json) :=
  [(lit "cell_type", JStr (lit "code"));
   (lit "source", JArr (JStr <$> [lit "print(1)"]));
   (lit "outputs", JArr (JObj <$> [stream_members]))].
Definition code_cell : json := JObj code_members.
Definition code_typed : Cell :=
  {| c_type := lit "code"; c_source := Some [lit "print(1)"];
     c_outputs := [stream_typed] |}.

(** A code cell whose only output has a [text] without fragments. *)
Definition silent_members : list (str * json) :=
  [(lit "output_type", JStr (lit "stream")); (lit "text", JArr (JStr <$> []))].
Definition silent_typed : Output :=
  {| o_type := lit "stream"; o_text := Some [];
     o_plain := None; o_traceback := None |}.

Definition silent_cell_members : list (str * json) :=
  [(lit "cell_type", JStr (lit "code"));
   (lit "source", JArr (JStr <$> [lit "x"]));
   (lit "outputs", JArr (JObj <$> [silent_members]))].
Definition silent_cell_typed : Cell :=
  {| c_type := lit "code"; c_source := Some [lit "x"];
     c_outputs := [silent_typed] |}.

(** An output whose [data] is a string, and a code cell holding it. *)
Definition odd_data_members : list (str * json) :=
  [(lit "output_type", JStr (lit "execute_result"));
   (lit "text", JArr (JStr <$> [lit "42"]));
   (lit "data", JStr (lit "oops"))].
Definition odd_data_typed : Output :=
  {| o_type := lit "execute_result"; o_text := Some [lit "42"];
     o_plain := None; o_traceback := None |}.
Definition odd_data_cell : json :=
  JObj [(lit "cell_type", JStr (lit "code"));
        (lit "source", JArr (JStr <$> [lit "6 * 7"]));
        (lit "outputs", JArr [JObj odd_data_members])].

(** A cell without [cell_type] and an output without [output_type]. *)
Definition untyped_cell_members : list (str * json) :=
  [(lit "source", JArr (JStr <$> [lit "raw text  "]))].
Definition untyped_output_members : list (str * json) :=
  [(lit "text", JArr (JStr <$> [lit "hi"]))].
Definition untyped_output_typed : Output :=
  {| o_type := lit "output"; o_text := Some [lit "hi"];
     o_plain := None; o_traceback := None |}.

Definition nb_members : list (str * json) :=
  [(lit "cells", JArr [markdown_cell; code_cell])].
Definition nb : json := JObj nb_members.

Definition nb_text : str :=
  lit "{" ++ quoted "cells" ++ lit ": [{"
  ++ quoted "cell_type" ++ lit ": " ++ quoted "markdown" ++ lit ", "
  ++ quoted "source" ++ lit ": [" ++ quoted "# Title\n" ++ lit ", " ++ quoted "body"
  ++ lit "]}, {"
  ++ quoted "cell_type" ++ lit ": " ++ quoted "code" ++ lit ", "
  ++ quoted "source" ++ lit ": [" ++ quoted "print(1)" ++ lit "], "
  ++ quoted "outputs" ++ lit ": [{"
  ++ quoted "output_type" ++ lit ": " ++ quoted "stream" ++ lit ", "
  ++ quoted "text" ++ lit ": [" ++ quoted "1\n" ++ lit "]}]}]}".

(** The blocks of its cells. *)
Definition nb_blocks : list str :=
  [nl_join [lit "Cell type: markdown"; lit "-- Markdown --"; lit "# Title"; lit "body"];
   nl_join [lit "Cell type: code"; lit "-- Code --"; lit "print(1)";
            lit "-- Outputs --"; lit "[1] output_type: stream"; lit "1"]].

(** A document whose top level is a list: [nb.get] raises. *)
Definition list_text : str := lit "[]".

Definition sample_loads (text : str) : option json :=
  if decide (text = empty_text) then Some empty_nb
  else if decide (text = nb_text) then Some nb
  else if decide (text = list_text) then Some (JArr [])
  else None.

Definition class_name (e : exn) : str :=
  match e with
  | AttributeError => lit "AttributeError"
  | TypeError => lit "TypeError"
  | JSONDecodeError => lit "JSONDecodeError"
  | FileNotFoundError => lit "FileNotFoundError"
  | FileExistsError => lit "FileExistsError"
  | IsADirectoryError => lit "IsADirectoryError"
  | NotADirectoryError => lit "NotADirectoryError"
  | UnicodeEncodeError => lit "UnicodeEncodeError"
  end.

(** The prefixes of a path that end before a [/]. *)
Fixpoint prefixes_at_slash (before after : str) : list str :=
  match after with
  | [] => []
  | c :: r =>
      (if (c =? 47)%N && negb (bool_decide (before = [])) then [before] else [])
      ++ prefixes_at_slash (before ++ [c]) r
  end.

Definition posix_ancestors (p : str) : list str := prefixes_at_slash [] p.

(** A parser for the plain spellings of the command line: one path,
    [-o DIR] or [--outdir DIR], [--overwrite]; [-h] exits with status 0
    (the help text is left out), anything else with status 2. *)
Fixpoint parse_plain (a : args) (have_path : bool) (argv : list str) : parsed :=
  match argv with
  | [] => if have_path then Parsed a else ParserExit [] 2
  | x :: rest =>
      if bool_decide (x = lit "--overwrite") then
        parse_plain {| path := path a; outdir := outdir a; overwrite := true |}
          have_path rest
      else if bool_decide (x = lit "-o") || bool_decide (x = lit "--outdir") then
        match rest with
        | d :: rest' =>
            parse_plain {| path := path a; outdir := Some d; overwrite := overwrite a |}
              have_path rest'
        | [] => ParserExit [] 2
        end
      else if bool_decide (x = lit "-h") || bool_decide (x = lit "--help") then
        ParserExit [] 0
      else if bool_decide (take 1 x = lit "-") || have_path then ParserExit [] 2
      else
        parse_plain {| path := x; outdir := outdir a; overwrite := overwrite a |}
          true rest
  end.

Definition sample_parse_args (argv : list str) : parsed :=
  parse_plain {| path := []; outdir := None; overwrite := false |} false argv.

(** Standard output encodes as UTF-8, strictly. *)
Definition runtime_with (loads : str -> option json) : Runtime := {|
  repr_str s := lit "'" ++ s ++ lit "'";
  repr_float _ := lit "nan";
  lower := ascii_lower;
  json_loads := loads;
  basename := posix_basename;
  splitext_root := posix_splitext_root;
  path_join := posix_join;
  script_dir := lit "/repo/Helper Scripts";
  exn_message := class_name;
  ancestors := posix_ancestors;
  anchor p := if bool_decide (take 1 p = lit "/") then lit "/" else lit ".";
  printable := encodable;
  parse_args := sample_parse_args
|}.

Definition runtime : Runtime := runtime_with sample_loads.

(** A directory [nbs] with a good notebook, a file that is not JSON and a
    JSON file that is not a notebook; [out] does not exist. *)
Definition batch_world : world := {|
  fs := list_to_map
          [(lit "nbs", Dir [lit "b.ipynb"; lit "a.ipynb"; lit "notes.txt"; lit "c.IPYNB"]);
           (lit "nbs/a.ipynb", File (lit "not json"));
           (lit "nbs/b.ipynb", File nb_text);
           (lit "nbs/c.IPYNB", File list_text);
           (lit "nbs/notes.txt", File (lit "hello"))];
  stdout := []
|}.

(** Another file system holding the same notebook, with a stale output. *)
Definition other_world : world := {|
  fs := list_to_map
          [(lit "nbs/b.ipynb", File nb_text); (lit "old.txt", File (lit "stale"))];
  stdout := [lit "earlier output"]
|}.

Definition batch_args : args :=
  {| path := lit "nbs"; outdir := Some (lit "out"); overwrite := false |}.

(** The same batch with the output directory naming a regular file. *)
Definition clash_args : args :=
  {| path := lit "nbs"; outdir := Some (lit "nbs/notes.txt"); overwrite := false |}.

(** One notebook, with the output directory naming a regular file. *)
Definition single_clash_args : args :=
  {| path := lit "nbs/b.ipynb"; outdir := Some (lit "nbs/notes.txt");
     overwrite := true |}.

(** A path that is not a notebook. *)
Definition empty_args : args :=
  {| path := lit "nbs/notes.txt"; outdir := Some (lit "out"); overwrite := true |}.

End Sample.

(** ** Further vocabulary for the batch driver *)

Section BatchSpecification.
Context `{Runtime}.

(** The lines [main] prints for a notebook it skips or converts. *)
Definition skip_line (outdir ipynb : str) : str :=
  lit "Skipping existing file (use --overwrite to replace): "
  ++ target_path outdir ipynb.

Definition converted_line (outdir ipynb : str) : str :=
  lit "Converted: " ++ ipynb ++ lit " -> " ++ target_path outdir ipynb.

(** The line printed for a notebook whose conversion raised [e], and the
    notice printed when no notebook is found. *)
Definition failed_line (ipynb : str) (e : exn) : str :=
  lit "Failed to convert " ++ ipynb ++ lit ": " ++ exn_message e.

Definition not_found_line (p : str) : str := lit "No .ipynb files found at: " ++ p.

(** Standard output can encode whatever the batch may print for a
    notebook. *)
Definition reports_printable (outdir ipynb : str) : Prop :=
  printable (skip_line outdir ipynb) = true
  /\ printable (converted_line outdir ipynb) = true
  /\ forall e, printable (failed_line ipynb e) = true.

End BatchSpecification.

(** ** More sample inputs *)

Module Cases.

(** A cell of a type the script has no label for. *)
Definition raw_members : list (str * json) :=
  [(lit "cell_type", JStr (lit "raw"));
   (lit "source", JArr (JStr <$> [lit "plain text "; NL]));
   (lit "outputs", JInt 7)].

(** A stream output that carries a traceback the script has no use for. *)
Definition stray_traceback_members : list (str * json) :=
  [(lit "output_type", JStr (lit "stream"));
   (lit "text", JArr (JStr <$> [lit "ok"]));
   (lit "traceback", JInt 3)].

(** An output whose [text/plain] entry is null. *)
Definition null_plain_members : list (str * json) :=
  [(lit "output_type", JStr (lit "execute_result"));
   (lit "data", JObj [(lit "text/plain", JNull)])].
Definition null_plain_typed : Output :=
  {| o_type := lit "execute_result"; o_text := None;
     o_plain := None; o_traceback := None |}.

(** A code cell with two outputs, the second with a [text] without
    fragments; and one whose second output has no [output_type]. *)
Definition quiet_second_members : list (str * json) :=
  [(lit "cell_type", JStr (lit "code"));
   (lit "source", JArr (JStr <$> [lit "f()"]));
   (lit "outputs", JArr (JObj <$> [Sample.stream_members; Sample.silent_members]))].
Definition untyped_second_members : list (str * json) :=
  [(lit "cell_type", JStr (lit "code"));
   (lit "source", JArr (JStr <$> [lit "f()"]));
   (lit "outputs",
    JArr (JObj <$> [Sample.stream_members; Sample.untyped_output_members]))].

(** A notebook whose second cell is a number. *)
Definition broken_members : list (str * json) :=
  [(lit "cells", JArr ([Sample.markdown_cell] ++ JInt 5 :: [Sample.code_cell]))].
Definition broken_text : str :=
  lit "{" ++ Sample.quoted "cells" ++ lit ": [{"
  ++ Sample.quoted "cell_type" ++ lit ": " ++ Sample.quoted "markdown" ++ lit ", "
  ++ Sample.quoted "source" ++ lit ": [" ++ Sample.quoted "# Title\n" ++ lit ", "
  ++ Sample.quoted "body" ++ lit "]}, 5, {"
  ++ Sample.quoted "cell_type" ++ lit ": " ++ Sample.quoted "code" ++ lit ", "
  ++ Sample.quoted "source" ++ lit ": [" ++ Sample.quoted "print(1)" ++ lit "], "
  ++ Sample.quoted "outputs" ++ lit ": [{"
  ++ Sample.quoted "output_type" ++ lit ": " ++ Sample.quoted "stream" ++ lit ", "
  ++ Sample.quoted "text" ++ lit ": [" ++ Sample.quoted "1\n" ++ lit "]}]}]}".

(** A notebook whose [metadata] is null. *)
Definition null_metadata_members : list (str * json) :=
  [(lit "metadata", JNull); (lit "cells", JArr [])].
Definition null_metadata_text : str :=
  lit "{" ++ Sample.quoted "metadata" ++ lit ": null, "
  ++ Sample.quoted "cells" ++ lit ": []}".

(** Notebooks whose [cells] is an empty object, and a number. *)
Definition object_cells_members : list (str * json) := [(lit "cells", JObj [])].
Definition object_cells_text : str :=
  lit "{" ++ Sample.quoted "cells" ++ lit ": {}}".
Definition number_cells_members : list (str * json) := [(lit "cells", JInt 5)].
Definition number_cells_text : str :=
  lit "{" ++ Sample.quoted "cells" ++ lit ": 5}".

Definition loads (text : str) : option json :=
  if decide (text = broken_text) then Some (JObj broken_members)
  else if decide (text = null_metadata_text) then Some (JObj null_metadata_members)
  else if decide (text = object_cells_text) then Some (JObj object_cells_members)
  else if decide (text = number_cells_text) then Some (JObj number_cells_members)
  else Sample.sample_loads text.

(** The sample runtime with the documents above added to [json_loads]. *)
Definition runtime : Runtime := Sample.runtime_with loads.

Definition broken_world : world := {|
  fs := list_to_map
          [(lit "broken.ipynb", File broken_text);
           (lit "nometa.ipynb", File null_metadata_text);
           (lit "object.ipynb", File object_cells_text);
           (lit "number.ipynb", File number_cells_text);
           (lit "out", Dir [])];
  stdout := []
|}.

(** The sample notebooks in a directory whose name holds a lone
    surrogate, as [os.listdir] spells a byte it cannot decode. *)
Definition odd_dir : str := lit "nbs" ++ [56448%N].
Definition odd_dir_world : world := {|
  fs := list_to_map
          [(odd_dir, Dir [lit "a.ipynb"; lit "b.ipynb"]);
           (odd_dir ++ lit "/a.ipynb", File (lit "not json"));
           (odd_dir ++ lit "/b.ipynb", File Sample.nb_text)];
  stdout := []
|}.

(** The sample batch after a first run. *)
Definition after_first_run : world :=
  (main (H := Sample.runtime) Sample.batch_args Sample.batch_world).1.

End Cases.

(** ** Two notebooks with one output text *)

Module Lookalike.

(** The eighty dashes of the separator. *)
Definition dashes : string :=
  "--------------------------------------------------------------------------------".

(** A notebook of one markdown cell whose source goes on, after [a], with
    a separator, a [Cell 2] line and the first lines of a markdown block. *)
Definition one_source : str :=
  lit "a" ++ NL ++ lit dashes ++ NL ++ lit "Cell 2" ++ NL
  ++ lit "Cell type: markdown" ++ NL ++ lit "-- Markdown --" ++ NL ++ lit "b".
Definition one_cell : json :=
  JObj [(lit "cell_type", JStr (lit "markdown"));
        (lit "source", JArr (JStr <$> [one_source]))].
Definition one_members : list (str * json) := [(lit "cells", JArr [one_cell])].
Definition one_text : str :=
  lit "{" ++ Sample.quoted "cells" ++ lit ": [{"
  ++ Sample.quoted "cell_type" ++ lit ": " ++ Sample.quoted "markdown" ++ lit ", "
  ++ Sample.quoted "source" ++ lit ": [" ++ [34%N] ++ lit "a\n" ++ lit dashes
  ++ lit "\nCell 2\nCell type: markdown\n-- Markdown --\nb" ++ [34%N]
  ++ lit "]}]}".

(** A notebook of two markdown cells, [a] and [b]. *)
Definition cell_a : json :=
  JObj [(lit "cell_type", JStr (lit "markdown"));
        (lit "source", JArr (JStr <$> [lit "a"]))].
Definition cell_b : json :=
  JObj [(lit "cell_type", JStr (lit "markdown"));
        (lit "source", JArr (JStr <$> [lit "b"]))].
Definition two_members : list (str * json) := [(lit "cells", JArr [cell_a; cell_b])].
Definition two_text : str :=
  lit "{" ++ Sample.quoted "cells" ++ lit ": [{"
  ++ Sample.quoted "cell_type" ++ lit ": " ++ Sample.quoted "markdown" ++ lit ", "
  ++ Sample.quoted "source" ++ lit ": [" ++ Sample.quoted "a" ++ lit "]}, {"
  ++ Sample.quoted "cell_type" ++ lit ": " ++ Sample.quoted "markdown" ++ lit ", "
  ++ Sample.quoted "source" ++ lit ": [" ++ Sample.quoted "b" ++ lit "]}]}".

Definition loads (text : str) : option json :=
  if decide (text = one_text) then Some (JObj one_members)
  else if decide (text = two_text) then Some (JObj two_members)
  else Sample.sample_loads text.

Definition runtime : Runtime := Sample.runtime_with loads.

(** Both notebooks are called [nb.ipynb]. *)
Definition lookalike_world : world := {|
  fs := list_to_map
          [(lit "one/nb.ipynb", File one_text);
           (lit "two/nb.ipynb", File two_text);
           (lit "out", Dir [])];
  stdout := []
|}.

(** The text both of them give. *)
Definition common_text : str :=
  lit "Notebook: nb.ipynb" ++ NL ++ lit "Kernelspec: {}" ++ NL ++ CELL_SEPARATOR
  ++ lit "Cell 1" ++ NL
  ++ lit "Cell type: markdown" ++ NL ++ lit "-- Markdown --" ++ NL ++ lit "a"
  ++ CELL_SEPARATOR
  ++ lit "Cell 2" ++ NL
  ++ lit "Cell type: markdown" ++ NL ++ lit "-- Markdown --" ++ NL ++ lit "b"
  ++ CELL_SEPARATOR.

End Lookalike.


(** * Properties *)

(** ** Fallible computations *)

Lemma bind_Ok {A B} (f : A -> result B) (a : A) : (Ok a ≫= f) = f a.
Proof. reflexivity. Qed.

Lemma bind_Ok_inv {A B} (m : result A) (f : A -> result B) (b : B) :
  (m ≫= f) = Ok b -> exists a, m = Ok a /\ f a = Ok b.
Proof. destruct m as [a|e]; [eauto | discriminate]. Qed.

Lemma mapR_length {A B} (f : A -> result B) (l : list A) (r : list B) :
  mapR f l = Ok r -> length r = length l.
Proof.
  revert r. induction l as [|x l IH]; intros r; simpl.
  - now intros [= <-].
  - intros Hr. apply bind_Ok_inv in Hr as (y & Hy & Hr).
    apply bind_Ok_inv in Hr as (ys & Hys & [= <-]).
    simpl. now rewrite (IH ys).
Qed.

(** ** Python text *)

Lemma concat_chars (s : str) : concat ((fun c => [c]) <$> s) = s.
Proof. induction s as [|c s IH]; [reflexivity|]. simpl. f_equal. exact IH. Qed.

(** [rstrip] leaves no trailing whitespace. *)
Lemma rstrip_last (s : str) (c : N) : last (rstrip s) = Some c -> is_space c = false.
Proof.
  induction s as [|x s IH]; simpl; [discriminate|].
  destruct (rstrip s) as [|y r] eqn:E.
  - destruct (is_space x) eqn:Hx; simpl; [discriminate|now intros [= <-]].
  - intros Hl. apply IH. rewrite <- Hl. reflexivity.
Qed.

(** [rstrip] only removes a suffix made of whitespace. *)
Lemma rstrip_spec (s : str) :
  exists ws, s = rstrip s ++ ws /\ forallb is_space ws = true.
Proof.
  induction s as [|x s (ws & IH & Hws)].
  - exists []. now split.
  - simpl. destruct (rstrip s) as [|y r] eqn:E.
    + destruct (is_space x) eqn:Hx.
      * exists (x :: ws). simpl in *. rewrite Hx, Hws. split; [now rewrite IH at 1|reflexivity].
      * exists ws. split; [simpl; now rewrite IH at 1|assumption].
    + exists ws. split; [simpl; now rewrite IH at 1|assumption].
Qed.

(** ** JSON values *)

Lemma mapR_as_str (l : list str) : mapR as_str (JStr <$> l) = Ok l.
Proof.
  induction l as [|s l IH]; [reflexivity|].
  rewrite fmap_cons. cbn [mapR as_str]. rewrite bind_Ok, IH. reflexivity.
Qed.

Lemma mapR_rstrip_line (l : list str) :
  mapR rstrip_line (JStr <$> l) = Ok (rstrip <$> l).
Proof.
  induction l as [|s l IH]; [reflexivity|].
  rewrite !fmap_cons. cbn [mapR rstrip_line]. rewrite bind_Ok, IH. reflexivity.
Qed.

Lemma iter_frags (v : json) (l : list str) : is_frags v l -> iter v = Ok (JStr <$> l).
Proof.
  intros [l'|s]; simpl; [reflexivity|].
  f_equal. induction s as [|c s IH]; [reflexivity|]. simpl. f_equal. exact IH.
Qed.

Lemma empty_join_frags (v : json) (l : list str) :
  is_frags v l -> empty_join v = Ok (concat l).
Proof.
  intros Hv. unfold empty_join.
  rewrite (iter_frags v l Hv), bind_Ok, mapR_as_str. reflexivity.
Qed.

(** Joining a string gives the string back. *)
Lemma empty_join_str (s : str) : empty_join (JStr s) = Ok s.
Proof.
  rewrite (empty_join_frags (JStr s) _ (frags_str s)). now rewrite concat_chars.
Qed.

Lemma truthy_frags (v : json) (l : list str) :
  is_frags v l -> truthy v = match l with [] => false | _ :: _ => true end.
Proof. intros [[|? ?]|[|? ?]]; reflexivity. Qed.

Lemma truthy_not_mapping (v : json) :
  ~ is_mapping v -> match py_or v (JObj []) with JObj d => d = [] | _ => True end.
Proof.
  intros Hv. unfold py_or. destruct (truthy v) eqn:E; [|reflexivity].
  destruct v; try exact I. destruct Hv. now eexists.
Qed.

(** ** The cell renderer against the typed view *)

Section CellRenderer.
Context `{Runtime}.

(** The three optional parts of an output, as the loop body computes
    them, on fields that fit the typed view. *)
Lemma text_step (t : option json) (ot : option (list str)) (acc : list str) :
  opt_frags t ot ->
  (if truthy (default JNull t)
   then s ← empty_join (default JNull t); Ok (acc ++ [rstrip s])
   else Ok acc)
  = Ok (acc ++ match ot with Some (f :: l) => [rstrip (concat (f :: l))] | _ => [] end).
Proof.
  intros [| |v l Hv]; simpl; try (now rewrite app_nil_r).
  rewrite (truthy_frags v l Hv). destruct l as [|f l].
  - now rewrite app_nil_r.
  - rewrite (empty_join_frags v _ Hv). reflexivity.
Qed.

Lemma data_step (dv : option json) (op : option (list str)) (acc : list str) :
  data_plain dv op ->
  match py_or (default JNull dv) (JObj []) with
  | JObj d =>
      match assoc (lit "text/plain") d with
      | Some plain => s ← empty_join plain; Ok (acc ++ [rstrip s])
      | None => Ok acc
      end
  | _ => Ok acc
  end
  = Ok (acc ++ match op with Some l => [rstrip (concat l)] | None => [] end).
Proof.
  intros [|v Hv|d Hd|d v l Hd Hv]; simpl; rewrite ?app_nil_r.
  - reflexivity.
  - pose proof (truthy_not_mapping v Hv) as Hor.
    destruct (py_or v (JObj [])); try reflexivity. now subst.
  - unfold py_or. destruct (truthy (JObj d)) eqn:E; simpl; [now rewrite Hd|reflexivity].
  - unfold py_or. destruct d as [|kv d]; [discriminate|]. simpl truthy. cbn iota.
    rewrite Hd, (empty_join_frags v l Hv). reflexivity.
Qed.

Lemma traceback_step (tv : option json) (ot : option (list str)) (ty : str)
    (acc : list str) :
  opt_frags tv ot ->
  (if bool_decide (ty = lit "error")
   then
     items ← iter (py_or (default JNull tv) (JArr []));
     lines ← mapR rstrip_line items;
     Ok (acc ++ lines)
   else Ok acc)
  = Ok (acc ++ if decide (ty = lit "error") then rstrip <$> default [] ot else []).
Proof.
  intros Htb. destruct (decide (ty = lit "error")) as [->|Hne].
  - rewrite bool_decide_eq_true_2 by reflexivity.
    destruct Htb as [| |v l Hv]; simpl; try reflexivity.
    unfold py_or. rewrite (truthy_frags v l Hv). destruct l as [|f l].
    + reflexivity.
    + rewrite (iter_frags v _ Hv), bind_Ok, mapR_rstrip_line. reflexivity.
  - rewrite bool_decide_eq_false_2 by assumption. now rewrite app_nil_r.
Qed.

(** On a well-formed output the loop body appends the lines of the typed
    view. *)
Lemma output_step_spec (m : list (str * json)) (o : Output) (acc : list str) (oi : nat) :
  is_output m o -> output_step acc oi (JObj m) = Ok (acc ++ output_lines oi o).
Proof.
  intros [Hty Htx Hd Htb]. unfold output_step, output_lines. cbn [dict_get].
  rewrite !bind_Ok.
  assert (Hfmt : py_format (default (JStr (lit "output")) (assoc (lit "output_type") m)) = o_type o)
    by (destruct Hty; reflexivity).
  assert (Herr : eq_str (default (JStr (lit "output")) (assoc (lit "output_type") m)) (lit "error")
                 = bool_decide (o_type o = lit "error"))
    by (destruct Hty; reflexivity).
  rewrite Hfmt, Herr. clear Hfmt Herr Hty.
  rewrite (text_step _ _ _ Htx), !bind_Ok. cbn beta.
  rewrite (data_step _ _ _ Hd), !bind_Ok. cbn beta.
  rewrite (traceback_step _ _ _ _ Htb).
  unfold index_line, text_lines, plain_lines, traceback_lines.
  rewrite <- !app_assoc. reflexivity.
Qed.

Lemma outputs_loop_spec (ms : list (list (str * json))) (os : list Output) :
  Forall2 is_output ms os ->
  forall (acc : list str) (oi : nat),
    outputs_loop acc oi (JObj <$> ms) = Ok (acc ++ outputs_lines oi os).
Proof.
  induction 1 as [|m o ms os Hm _ IH]; intros acc oi.
  - simpl. now rewrite app_nil_r.
  - rewrite fmap_cons. cbn [outputs_loop outputs_lines].
    rewrite (output_step_spec m o acc oi Hm), bind_Ok, IH.
    now rewrite app_assoc.
Qed.

Lemma source_step (sv : option json) (os : option (list str)) :
  opt_frags sv os ->
  empty_join (py_or (default (JArr []) sv) (JArr [])) = Ok (concat (default [] os)).
Proof.
  intros [| |v l Hv]; try reflexivity.
  simpl. unfold py_or. rewrite (truthy_frags v l Hv). destruct l as [|f l].
  - reflexivity.
  - exact (empty_join_frags v _ Hv).
Qed.

Lemma outputs_step (ov : option json) (os : list Output) (parts : list str) :
  has_outputs ov os ->
  (if truthy (py_or (default (JArr []) ov) (JArr []))
   then
     items ← iter (py_or (default (JArr []) ov) (JArr []));
     out_lines ← outputs_loop [lit "-- Outputs --"] 1 items;
     Ok (parts ++ [nl_join out_lines])
   else Ok parts)
  = Ok (parts ++ match os with
                 | [] => []
                 | _ :: _ => [nl_join (lit "-- Outputs --" :: outputs_lines 1 os)]
                 end).
Proof.
  intros [| |ms os' Hos]; simpl; rewrite ?app_nil_r; try reflexivity.
  destruct Hos as [|m o ms os' Hm Hos].
  - simpl. now rewrite app_nil_r.
  - unfold py_or. rewrite fmap_cons. simpl truthy. cbn iota. cbn [iter]. rewrite bind_Ok.
    rewrite <- fmap_cons.
    rewrite (outputs_loop_spec (m :: ms) (o :: os')) by now constructor.
    reflexivity.
Qed.

(** On a well-formed cell the renderer returns the block of the typed
    view. *)
Lemma extract_cell_spec (m : list (str * json)) (c : Cell) :
  is_cell m c -> extract_text_from_cell (JObj m) = Ok (cell_block c).
Proof.
  intros [Hty Hsrc Hout]. unfold extract_text_from_cell, cell_block. cbn [dict_get].
  rewrite !bind_Ok. cbn beta.
  rewrite (source_step _ _ Hsrc), bind_Ok.
  assert (Hfmt : py_format (default (JStr (lit "unknown")) (assoc (lit "cell_type") m)) = c_type c)
    by (destruct Hty; reflexivity).
  assert (Heq : forall s, eq_str (default (JStr (lit "unknown")) (assoc (lit "cell_type") m)) s
                 = bool_decide (c_type c = s))
    by (destruct Hty; reflexivity).
  rewrite Hfmt, !Heq. clear Hfmt Heq Hty.
  destruct (decide (c_type c = lit "markdown")) as [Hmd|Hmd].
  - rewrite bool_decide_eq_true_2 by assumption. rewrite bind_Ok.
    unfold markdown_block, source_text. now rewrite Hmd.
  - rewrite bool_decide_eq_false_2 by assumption.
    destruct (decide (c_type c = lit "code")) as [Hcode|Hcode].
    + rewrite bool_decide_eq_true_2 by assumption.
      rewrite bind_Ok. cbn beta. rewrite (outputs_step _ _ _ Hout), bind_Ok.
      unfold code_block, source_text. now rewrite Hcode.
    + rewrite bool_decide_eq_false_2 by assumption. reflexivity.
Qed.

(** C5: a markdown cell renders as the line [Cell type: markdown], the
    label [-- Markdown --] and the concatenated source with trailing
    whitespace trimmed, so that a source that is not blank gives a block
    without trailing whitespace; the source ["# Title\n", "body"] gives a
    block ending in [# Title\nbody]. *)
Theorem markdown_cell_block :
  (forall (m : list (str * json)) (src : option (list str)),
      assoc (lit "cell_type") m = Some (JStr (lit "markdown")) ->
      opt_frags (assoc (lit "source") m) src ->
      extract_text_from_cell (JObj m)
      = Ok (lit "Cell type: markdown" ++ NL ++ lit "-- Markdown --" ++ NL
            ++ rstrip (concat (default [] src))))
  /\ extract_text_from_cell Sample.markdown_cell
     = Ok (lit "Cell type: markdown" ++ NL ++ lit "-- Markdown --" ++ NL
           ++ lit "# Title" ++ NL ++ lit "body")
  /\ (forall (m : list (str * json)) (src : option (list str)) (b : str) (c : N),
         assoc (lit "cell_type") m = Some (JStr (lit "markdown")) ->
         opt_frags (assoc (lit "source") m) src ->
         rstrip (concat (default [] src)) <> [] ->
         extract_text_from_cell (JObj m) = Ok b ->
         last b = Some c -> is_space c = false).
Proof.
  assert (Hblock : forall (m : list (str * json)) (src : option (list str)),
      assoc (lit "cell_type") m = Some (JStr (lit "markdown")) ->
      opt_frags (assoc (lit "source") m) src ->
      extract_text_from_cell (JObj m)
      = Ok (lit "Cell type: markdown" ++ NL ++ lit "-- Markdown --" ++ NL
            ++ rstrip (concat (default [] src)))).
  { intros m src Hty Hsrc. unfold extract_text_from_cell. cbn [dict_get].
    rewrite Hty, !bind_Ok. cbn beta. cbn [default].
    rewrite (source_step _ _ Hsrc), bind_Ok. reflexivity. }
  split; [exact Hblock|]. split; [reflexivity|].
  intros m src b c Hty Hsrc Hne. rewrite (Hblock m src Hty Hsrc). intros Hb.
  assert (Hbe : b = (lit "Cell type: markdown" ++ NL ++ lit "-- Markdown --" ++ NL)
                    ++ rstrip (concat (default [] src)))
    by (rewrite <- !app_assoc; congruence).
  rewrite Hbe, last_app.
  destruct (last (rstrip _)) as [c'|] eqn:Hlast.
  - intros [= <-]. exact (rstrip_last _ _ Hlast).
  - apply last_None in Hlast. contradiction.
Qed.

(** C4, with the text line for a non-empty [text] only: a code cell
    renders as [Cell type: code], the label [-- Code --] and the
    right-trimmed source; exactly when it has outputs an [-- Outputs --]
    section follows with, for each output numbered from 1, its index
    line, the trimmed text when [text] has at least one fragment, the
    trimmed [text/plain] entry when present, and the right-trimmed
    traceback lines of an error output. The cell of the specification's
    example renders as it says. *)
Theorem code_cell_block :
  (forall (m : list (str * json)) (c : Cell),
      is_cell m c -> c_type c = lit "code" ->
      extract_text_from_cell (JObj m)
      = Ok (code_block c (outputs_lines 1 (c_outputs c))))
  /\ extract_text_from_cell Sample.code_cell
     = Ok (nl_join [lit "Cell type: code"; lit "-- Code --"; lit "print(1)";
                    lit "-- Outputs --"; lit "[1] output_type: stream"; lit "1"]).
Proof.
  split; [|reflexivity].
  intros m c Hc Hty. rewrite (extract_cell_spec m c Hc). unfold cell_block.
  rewrite Hty. reflexivity.
Qed.

Lemma outputs_lines_app (xs ys : list Output) :
  forall oi : nat,
    outputs_lines oi (xs ++ ys) = outputs_lines oi xs ++ outputs_lines (oi + length xs) ys.
Proof.
  induction xs as [|x xs IH]; intros oi.
  - simpl. now rewrite Nat.add_0_r.
  - cbn [app outputs_lines length]. rewrite IH, <- app_assoc.
    do 3 f_equal. lia.
Qed.

(** A code cell whose outputs fit the typed view, seen from one of its
    outputs: the block, with the lines of that output between those of
    the outputs before it and after it. *)
Lemma code_cell_around_output (m : list (str * json)) (src : option (list str))
    (msb msa : list (list (str * json))) (mo : list (str * json))
    (before after : list Output) (o : Output) :
  assoc (lit "cell_type") m = Some (JStr (lit "code")) ->
  opt_frags (assoc (lit "source") m) src ->
  assoc (lit "outputs") m = Some (JArr (JObj <$> (msb ++ mo :: msa))) ->
  Forall2 is_output msb before -> is_output mo o -> Forall2 is_output msa after ->
  extract_text_from_cell (JObj m)
  = Ok (nl_join [lit "Cell type: code"; lit "-- Code --";
                 rstrip (concat (default [] src));
                 nl_join (lit "-- Outputs --"
                          :: outputs_lines 1 before
                          ++ output_lines (S (length before)) o
                          ++ outputs_lines (S (S (length before))) after)]).
Proof.
  intros Hty Hsrc Houts Hb Ho Ha.
  pose (c := {| c_type := lit "code"; c_source := src;
                c_outputs := before ++ o :: after |}).
  assert (Hc : is_cell m c).
  { split; cbn [c_type c_source c_outputs c].
    - rewrite Hty. constructor.
    - exact Hsrc.
    - rewrite Houts. constructor. apply Forall2_app; [exact Hb|now constructor]. }
  rewrite (extract_cell_spec m c Hc). unfold cell_block, code_block, source_text.
  cbn [c_type c_source c_outputs c].
  rewrite decide_False by (vm_compute; discriminate).
  rewrite decide_True by reflexivity.
  rewrite outputs_lines_app. cbn [outputs_lines].
  change (1 + length before) with (S (length before)).
  destruct before; reflexivity.
Qed.

(** C3, with the empty [text] on the side of the absent one: in the block
    of a code cell whose outputs are well formed, the section of an
    output holds, right after its index line, the trimmed concatenation
    of the [text] fragments when [text] holds at least one fragment; when
    [text] is absent, null or holds no fragment, the section has no line
    for it. *)
Theorem text_line_emitted :
  forall (m : list (str * json)) (src : option (list str))
         (msb msa : list (list (str * json))) (mo : list (str * json))
         (before after : list Output) (o : Output),
    assoc (lit "cell_type") m = Some (JStr (lit "code")) ->
    opt_frags (assoc (lit "source") m) src ->
    assoc (lit "outputs") m = Some (JArr (JObj <$> (msb ++ mo :: msa))) ->
    Forall2 is_output msb before -> is_output mo o -> Forall2 is_output msa after ->
    (forall f l, o_text o = Some (f :: l) ->
       extract_text_from_cell (JObj m)
       = Ok (nl_join [lit "Cell type: code"; lit "-- Code --";
                      rstrip (concat (default [] src));
                      nl_join (lit "-- Outputs --"
                               :: outputs_lines 1 before
                               ++ (index_line (S (length before)) (o_type o)
                                   :: rstrip (concat (f :: l))
                                   :: plain_lines o ++ traceback_lines o)
                               ++ outputs_lines (S (S (length before))) after)]))
    /\ (o_text o = None \/ o_text o = Some [] ->
        extract_text_from_cell (JObj m)
        = Ok (nl_join [lit "Cell type: code"; lit "-- Code --";
                       rstrip (concat (default [] src));
                       nl_join (lit "-- Outputs --"
                                :: outputs_lines 1 before
                                ++ (index_line (S (length before)) (o_type o)
                                    :: plain_lines o ++ traceback_lines o)
                                ++ outputs_lines (S (S (length before))) after)]))
    /\ (assoc (lit "text") mo = None \/ assoc (lit "text") mo = Some JNull
        \/ assoc (lit "text") mo = Some (JArr []) ->
        o_text o = None \/ o_text o = Some []).
Proof.
  intros m src msb msa mo before after o Hty Hsrc Houts Hb Ho Ha.
  pose proof (code_cell_around_output m src msb msa mo before after o
                Hty Hsrc Houts Hb Ho Ha) as Hblock.
  unfold output_lines, text_lines in Hblock. split; [|split].
  - intros f l Htx. rewrite Htx in Hblock. exact Hblock.
  - intros [Htx|Htx]; rewrite Htx in Hblock; exact Hblock.
  - destruct Ho as [_ Htx _ _]. intros [E|[E|E]]; rewrite E in Htx.
    + inversion Htx. now left.
    + inversion Htx as [| |v l Hv]; [now left|inversion Hv].
    + inversion Htx as [| |v l Hv]; subst. inversion Hv as [l' Hl|]; subst.
      destruct l; [now right|discriminate].
Qed.

(** Whatever an output holds, the loop body that completes has appended
    its index line, with the formatted [output_type], to the lines it was
    given. *)
Lemma output_step_index (acc : list str) (oi : nat) (out : json) (lines : list str) :
  output_step acc oi out = Ok lines ->
  exists ty rest,
    dict_get out (lit "output_type") (JStr (lit "output")) = Ok ty
    /\ lines = acc ++ (lit "[" ++ dec oi ++ lit "] output_type: " ++ py_format ty) :: rest.
Proof.
  unfold output_step. intros Hl.
  apply bind_Ok_inv in Hl as (ty & Hty & Hl). exists ty.
  set (idx := lit "[" ++ dec oi ++ lit "] output_type: " ++ py_format ty) in *.
  apply bind_Ok_inv in Hl as (text & _ & Hl).
  apply bind_Ok_inv in Hl as (l1 & H1 & Hl).
  apply bind_Ok_inv in Hl as (data & _ & Hl).
  apply bind_Ok_inv in Hl as (l2 & H2 & Hl).
  assert (exists r1, l1 = (acc ++ [idx]) ++ r1) as [r1 ->].
  { revert H1. destruct (truthy _); intros H1;
      [|injection H1 as <-; exists []; now rewrite app_nil_r].
    apply bind_Ok_inv in H1 as (s & _ & [= <-]). now eexists. }
  assert (exists r2, l2 = ((acc ++ [idx]) ++ r1) ++ r2) as [r2 ->].
  { revert H2. destruct (py_or _ _) as [| | | | | |d]; intros H2;
      try (injection H2 as <-; exists []; now rewrite app_nil_r).
    revert H2. destruct (assoc _ d); intros H2;
      [|injection H2 as <-; exists []; now rewrite app_nil_r].
    apply bind_Ok_inv in H2 as (s & _ & [= <-]). now eexists. }
  revert Hl. destruct (eq_str ty (lit "error")); intros Hl.
  - apply bind_Ok_inv in Hl as (tb & _ & Hl).
    apply bind_Ok_inv in Hl as (items & _ & Hl).
    apply bind_Ok_inv in Hl as (tail & _ & [= <-]).
    exists (r1 ++ r2 ++ tail). split; [exact Hty|]. now rewrite <- !app_assoc.
  - injection Hl as <-. exists (r1 ++ r2). split; [exact Hty|].
    now rewrite <- !app_assoc.
Qed.

(** The loop only appends. *)
Lemma outputs_loop_extends (outs : list json) :
  forall (acc : list str) (oi : nat) (lines : list str),
    outputs_loop acc oi outs = Ok lines -> exists more, lines = acc ++ more.
Proof.
  induction outs as [|out outs IH]; intros acc oi lines Hl.
  - injection Hl as <-. exists []. now rewrite app_nil_r.
  - cbn [outputs_loop] in Hl. apply bind_Ok_inv in Hl as (l1 & H1 & Hl).
    apply output_step_index in H1 as (ty & rest & _ & ->).
    apply IH in Hl as [more ->]. eexists. now rewrite <- app_assoc.
Qed.

Lemma outputs_loop_app (pre post : list json) :
  forall (acc : list str) (oi : nat),
    outputs_loop acc oi (pre ++ post)
    = (lines ← outputs_loop acc oi pre; outputs_loop lines (oi + length pre) post).
Proof.
  induction pre as [|out pre IH]; intros acc oi.
  - cbn [app outputs_loop length]. rewrite bind_Ok, Nat.add_0_r. reflexivity.
  - cbn [app outputs_loop length]. destruct (output_step acc oi out) as [l1|e].
    + rewrite !bind_Ok, IH. now replace (S oi + length pre) with (oi + S (length pre)) by lia.
    + reflexivity.
Qed.

(** C9: a cell without [cell_type] renders with the first line
    [Cell type: unknown]; in the block of a code cell, an output without
    [output_type] has the index line [[N] output_type: output], [N] being
    its position among the outputs: exactly so when the outputs are well
    formed, and among the lines of the section whenever the cell
    renders. *)
Theorem missing_type_defaults :
  (forall (m : list (str * json)) (src : option (list str)),
      assoc (lit "cell_type") m = None ->
      opt_frags (assoc (lit "source") m) src ->
      extract_text_from_cell (JObj m)
      = Ok (lit "Cell type: unknown" ++ NL ++ rstrip (concat (default [] src))))
  /\ (forall (m : list (str * json)) (b : str),
         assoc (lit "cell_type") m = None ->
         extract_text_from_cell (JObj m) = Ok b ->
         exists rest, b = lit "Cell type: unknown" ++ NL ++ rest)
  /\ (forall (m : list (str * json)) (src : option (list str))
             (msb msa : list (list (str * json))) (mo : list (str * json))
             (before after : list Output) (o : Output),
         assoc (lit "cell_type") m = Some (JStr (lit "code")) ->
         opt_frags (assoc (lit "source") m) src ->
         assoc (lit "outputs") m = Some (JArr (JObj <$> (msb ++ mo :: msa))) ->
         Forall2 is_output msb before -> is_output mo o -> Forall2 is_output msa after ->
         assoc (lit "output_type") mo = None ->
         extract_text_from_cell (JObj m)
         = Ok (nl_join [lit "Cell type: code"; lit "-- Code --";
                        rstrip (concat (default [] src));
                        nl_join (lit "-- Outputs --"
                                 :: outputs_lines 1 before
                                 ++ ((lit "[" ++ dec (S (length before))
                                      ++ lit "] output_type: output")
                                     :: text_lines o ++ plain_lines o)
                                 ++ outputs_lines (S (S (length before))) after)]))
  /\ (forall (m : list (str * json)) (pre post : list json) (mo : list (str * json))
             (b : str),
         assoc (lit "cell_type") m = Some (JStr (lit "code")) ->
         assoc (lit "outputs") m = Some (JArr (pre ++ JObj mo :: post)) ->
         assoc (lit "output_type") mo = None ->
         extract_text_from_cell (JObj m) = Ok b ->
         exists source lines_before lines_after,
           outputs_loop [lit "-- Outputs --"] 1 pre = Ok lines_before
           /\ b = nl_join [lit "Cell type: code"; lit "-- Code --"; rstrip source;
                           nl_join (lines_before
                                    ++ (lit "[" ++ dec (S (length pre))
                                        ++ lit "] output_type: output")
                                    :: lines_after)]).
Proof.
  split; [|split; [|split]].
  - intros m src Hty Hsrc. unfold extract_text_from_cell. cbn [dict_get].
    rewrite Hty, !bind_Ok. cbn beta. cbn [default].
    rewrite (source_step _ _ Hsrc), bind_Ok. reflexivity.
  - intros m b Hty. unfold extract_text_from_cell. cbn [dict_get].
    rewrite Hty, !bind_Ok. cbn beta. cbn [default]. intros Hb.
    apply bind_Ok_inv in Hb as (s & _ & Hb). simpl in Hb. injection Hb as <-.
    now eexists.
  - intros m src msb msa mo before after o Hty Hsrc Houts Hb Ho Ha Hnone.
    rewrite (code_cell_around_output m src msb msa mo before after o
               Hty Hsrc Houts Hb Ho Ha).
    destruct Ho as [Ht _ _ _]. rewrite Hnone in Ht.
    assert (Hout : o_type o = lit "output") by (inversion Ht; congruence).
    unfold output_lines, traceback_lines, index_line. rewrite Hout.
    rewrite decide_False by (vm_compute; discriminate).
    rewrite app_nil_r. reflexivity.
  - intros m pre post mo b Hty Houts Hnone. unfold extract_text_from_cell.
    cbn [dict_get]. rewrite Hty, Houts, !bind_Ok. cbn beta.
    change (default (JStr (lit "unknown")) (Some (JStr (lit "code"))))
      with (JStr (lit "code")).
    change (default (JArr []) (Some (JArr (pre ++ JObj mo :: post))))
      with (JArr (pre ++ JObj mo :: post)).
    intros Hb. apply bind_Ok_inv in Hb as (source & _ & Hb).
    cbn [eq_str py_format] in Hb.
    rewrite bool_decide_eq_false_2 in Hb by (vm_compute; discriminate).
    rewrite bool_decide_eq_true_2 in Hb by reflexivity.
    assert (Hor : py_or (JArr (pre ++ JObj mo :: post)) (JArr [])
                  = JArr (pre ++ JObj mo :: post)) by (now destruct pre).
    rewrite (bind_Ok _ (JArr (pre ++ JObj mo :: post))) in Hb. cbn beta in Hb.
    rewrite Hor in Hb.
    assert (Htruthy : truthy (JArr (pre ++ JObj mo :: post)) = true) by (now destruct pre).
    rewrite Htruthy in Hb. cbn [iter] in Hb. rewrite !bind_Ok in Hb.
    apply bind_Ok_inv in Hb as (parts & Hparts & [= <-]).
    apply bind_Ok_inv in Hparts as (out_lines & Hloop & [= <-]).
    rewrite outputs_loop_app in Hloop.
    apply bind_Ok_inv in Hloop as (lines_before & Hpre & Hloop).
    cbn [outputs_loop] in Hloop.
    apply bind_Ok_inv in Hloop as (l1 & Hstep & Hloop).
    apply output_step_index in Hstep as (ty & rest & Hget & ->).
    cbn [dict_get] in Hget. rewrite Hnone in Hget. injection Hget as <-.
    apply outputs_loop_extends in Hloop as [more ->].
    exists source, lines_before, (rest ++ more). split; [exact Hpre|].
    rewrite <- app_assoc. reflexivity.
Qed.

Lemma assoc_without_key_ne (k k' : str) (m : list (str * json)) :
  k <> k' -> assoc k' (without_key k m) = assoc k' m.
Proof.
  intros Hne. unfold without_key. induction m as [|[k0 v] m IH]; [reflexivity|].
  rewrite filter_cons. simpl. destruct (decide (k0 <> k)) as [Hk|Hk].
  - simpl. now rewrite IH.
  - apply dec_stable in Hk. subst k0.
    destruct (decide (k = k')); [contradiction|exact IH].
Qed.

Lemma assoc_without_key_eq (k : str) (m : list (str * json)) :
  assoc k (without_key k m) = None.
Proof.
  unfold without_key. induction m as [|[k0 v] m IH]; [reflexivity|].
  rewrite filter_cons. simpl. destruct (decide (k0 <> k)) as [Hk|Hk]; [|exact IH].
  simpl. destruct (decide (k0 = k)); [contradiction|exact IH].
Qed.

(** C10: an output whose [data] is present but is not a mapping renders
    as if [data] were absent: no data line is emitted and nothing is
    raised because of it. *)
Theorem non_mapping_data_ignored :
  (forall (m : list (str * json)) (d : json) (acc : list str) (oi : nat),
      assoc (lit "data") m = Some d -> ~ is_mapping d ->
      output_step acc oi (JObj m)
      = output_step acc oi (JObj (without_key (lit "data") m)))
  /\ (forall (m : list (str * json)) (o : Output) (d : json)
             (acc : list str) (oi : nat),
         is_output m o ->
         assoc (lit "data") m = Some d -> ~ is_mapping d ->
         plain_lines o = []
         /\ output_step acc oi (JObj m)
            = Ok (acc ++ index_line oi (o_type o) :: text_lines o ++ traceback_lines o))
  /\ extract_text_from_cell Sample.odd_data_cell
     = Ok (nl_join [lit "Cell type: code"; lit "-- Code --"; lit "6 * 7";
                    lit "-- Outputs --"; lit "[1] output_type: execute_result";
                    lit "42"]).
Proof.
  split; [|split; [|reflexivity]].
  - intros m d acc oi Hd Hnm. unfold output_step. cbn [dict_get].
    rewrite !bind_Ok. cbn beta.
    rewrite (assoc_without_key_ne (lit "data") (lit "output_type")),
      (assoc_without_key_ne (lit "data") (lit "text")),
      (assoc_without_key_ne (lit "data") (lit "traceback"))
      by (vm_compute; discriminate).
    match goal with |- (?T ≫= _) = _ => destruct T as [l1|e]; [|reflexivity] end.
    rewrite !bind_Ok. cbn beta.
    rewrite assoc_without_key_eq, Hd. change (default JNull (Some d)) with d.
    pose proof (truthy_not_mapping d Hnm) as Hor.
    destruct (py_or d (JObj [])) as [| | | | | |d']; try reflexivity.
    subst d'. reflexivity.
  - intros m o d acc oi Ho Hd Hnm.
    assert (Hp : o_plain o = None).
    { destruct Ho as [_ _ Hdata _]. rewrite Hd in Hdata.
      inversion Hdata as [|v Hv|d' Hd'|d' v l Hd' Hv]; subst; try reflexivity;
        destruct Hnm; now eexists. }
    rewrite (output_step_spec m o acc oi Ho).
    unfold output_lines, plain_lines. rewrite Hp. split; reflexivity.
Qed.

End CellRenderer.

(** *** The cell renderer on the sample inputs *)

Lemma markdown_cell_block_witness :
  extract_text_from_cell (H := Sample.runtime) (JObj Sample.markdown_members)
  = Ok (lit "Cell type: markdown" ++ NL ++ lit "-- Markdown --" ++ NL
        ++ rstrip (concat (default [] (Some [lit "# Title" ++ NL; lit "body"])))).
Proof.
  apply (proj1 (markdown_cell_block (H := Sample.runtime)) Sample.markdown_members).
  - reflexivity.
  - exact (opt_present _ _ (frags_list [lit "# Title" ++ NL; lit "body"])).
Defined.

Lemma stream_is_output : is_output Sample.stream_members Sample.stream_typed.
Proof.
  split.
  - exact (field_str _ _).
  - exact (opt_present _ _ (frags_list [lit "1" ++ NL])).
  - exact data_absent.
  - exact opt_absent.
Qed.

Lemma silent_is_output : is_output Sample.silent_members Sample.silent_typed.
Proof.
  split.
  - exact (field_str _ _).
  - exact (opt_present _ _ (frags_list [])).
  - exact data_absent.
  - exact opt_absent.
Qed.

Lemma code_is_cell : is_cell Sample.code_members Sample.code_typed.
Proof.
  split.
  - exact (field_str _ _).
  - exact (opt_present _ _ (frags_list [lit "print(1)"])).
  - apply (outputs_list [Sample.stream_members]).
    constructor; [exact stream_is_output|constructor].
Qed.

Lemma silent_is_cell : is_cell Sample.silent_cell_members Sample.silent_cell_typed.
Proof.
  split.
  - exact (field_str _ _).
  - exact (opt_present _ _ (frags_list [lit "x"])).
  - apply (outputs_list [Sample.silent_members]).
    constructor; [exact silent_is_output|constructor].
Qed.

Lemma code_cell_block_witness :
  extract_text_from_cell (H := Sample.runtime) (JObj Sample.code_members)
  = Ok (code_block Sample.code_typed (outputs_lines 1 (c_outputs Sample.code_typed))).
Proof.
  apply (proj1 (code_cell_block (H := Sample.runtime))).
  - exact code_is_cell.
  - reflexivity.
Defined.

(** The code cell whose output carries [text: []]: the field is present,
    the specification's wording asks for a line holding the (empty)
    trimmed concatenation, and the block has none. *)
Lemma code_cell_empty_text_no_line :
  is_cell Sample.silent_cell_members Sample.silent_cell_typed
  /\ c_type Sample.silent_cell_typed = lit "code"
  /\ extract_text_from_cell (H := Sample.runtime) (JObj Sample.silent_cell_members)
     = Ok (nl_join [lit "Cell type: code"; lit "-- Code --"; lit "x";
                    lit "-- Outputs --"; lit "[1] output_type: stream"])
  /\ extract_text_from_cell (H := Sample.runtime) (JObj Sample.silent_cell_members)
     <> Ok (code_block Sample.silent_cell_typed
              (outputs_lines_when_present 1 (c_outputs Sample.silent_cell_typed))).
Proof.
  split; [exact silent_is_cell|].
  split; [reflexivity|].
  split; [reflexivity|].
  vm_compute. discriminate.
Qed.

Lemma text_line_emitted_witness :
  extract_text_from_cell (H := Sample.runtime) (JObj Cases.quiet_second_members)
  = Ok (nl_join [lit "Cell type: code"; lit "-- Code --";
                 rstrip (concat (default [] (Some [lit "f()"])));
                 nl_join (lit "-- Outputs --"
                          :: outputs_lines 1 []
                          ++ (index_line 1 (o_type Sample.stream_typed)
                              :: rstrip (concat [lit "1" ++ NL])
                              :: plain_lines Sample.stream_typed
                                 ++ traceback_lines Sample.stream_typed)
                          ++ outputs_lines 2 [Sample.silent_typed])]).
Proof.
  apply (proj1 (text_line_emitted (H := Sample.runtime) Cases.quiet_second_members
                  (Some [lit "f()"]) [] [Sample.silent_members] Sample.stream_members
                  [] [Sample.silent_typed] Sample.stream_typed
                  eq_refl
                  (opt_present _ _ (frags_list [lit "f()"]))
                  eq_refl
                  ltac:(constructor)
                  stream_is_output
                  ltac:(constructor; [exact silent_is_output|constructor]))).
  reflexivity.
Defined.

(** The code cell whose second output is
    [{"output_type": "stream", "text": []}]: [text] is present, and the
    section of that output is its index line alone, without the line
    holding the (empty) trimmed concatenation. *)
Lemma empty_text_no_line :
  is_output Sample.silent_members Sample.silent_typed
  /\ assoc (lit "text") Sample.silent_members = Some (JArr [])
  /\ extract_text_from_cell (H := Sample.runtime) (JObj Cases.quiet_second_members)
     = Ok (nl_join [lit "Cell type: code"; lit "-- Code --"; lit "f()";
                    lit "-- Outputs --"; lit "[1] output_type: stream"; lit "1";
                    lit "[2] output_type: stream"])
  /\ extract_text_from_cell (H := Sample.runtime) (JObj Cases.quiet_second_members)
     <> Ok (nl_join [lit "Cell type: code"; lit "-- Code --"; lit "f()";
                     lit "-- Outputs --"; lit "[1] output_type: stream"; lit "1";
                     lit "[2] output_type: stream"; rstrip (concat [])]).
Proof.
  split; [exact silent_is_output|].
  split; [reflexivity|].
  split; [reflexivity|].
  vm_compute. discriminate.
Qed.

Lemma untyped_is_output :
  is_output Sample.untyped_output_members Sample.untyped_output_typed.
Proof.
  split.
  - exact (field_absent _).
  - exact (opt_present _ _ (frags_list [lit "hi"])).
  - exact data_absent.
  - exact opt_absent.
Qed.

Lemma missing_type_defaults_witness :
  extract_text_from_cell (H := Sample.runtime) (JObj Sample.untyped_cell_members)
  = Ok (lit "Cell type: unknown" ++ NL ++ lit "raw text")
  /\ extract_text_from_cell (H := Sample.runtime) (JObj Cases.untyped_second_members)
     = Ok (nl_join [lit "Cell type: code"; lit "-- Code --"; lit "f()";
                    lit "-- Outputs --"; lit "[1] output_type: stream"; lit "1";
                    lit "[2] output_type: output"; lit "hi"]).
Proof.
  pose proof (missing_type_defaults (H := Sample.runtime)) as (Hcell & _ & Hout & _).
  split.
  - apply (Hcell Sample.untyped_cell_members (Some [lit "raw text  "])).
    + reflexivity.
    + exact (opt_present _ _ (frags_list [lit "raw text  "])).
  - apply (Hout Cases.untyped_second_members (Some [lit "f()"])
             [Sample.stream_members] [] Sample.untyped_output_members
             [Sample.stream_typed] [] Sample.untyped_output_typed).
    + reflexivity.
    + exact (opt_present _ _ (frags_list [lit "f()"])).
    + reflexivity.
    + constructor; [exact stream_is_output|constructor].
    + exact untyped_is_output.
    + constructor.
    + reflexivity.
Defined.

Lemma odd_data_is_output : is_output Sample.odd_data_members Sample.odd_data_typed.
Proof.
  split.
  - exact (field_str _ _).
  - exact (opt_present _ _ (frags_list [lit "42"])).
  - apply (data_not_mapping (JStr (lit "oops"))). intros [d [=]].
  - exact opt_absent.
Qed.

Lemma non_mapping_data_ignored_witness :
  output_step (H := Sample.runtime) [] 1 (JObj Sample.odd_data_members)
  = Ok [lit "[1] output_type: execute_result"; lit "42"].
Proof.
  pose proof (non_mapping_data_ignored (H := Sample.runtime)) as (_ & Htyped & _).
  apply (Htyped Sample.odd_data_members Sample.odd_data_typed (JStr (lit "oops")) [] 1).
  - exact odd_data_is_output.
  - reflexivity.
  - intros [d [=]].
Defined.

(** ** The document renderer *)

Lemma encodable_app (a b : str) : encodable (a ++ b) = encodable a && encodable b.
Proof. apply forallb_app. Qed.

Lemma encodable_lit (s : string) : encodable (lit s) = true.
Proof.
  unfold encodable, lit. apply forallb_forall. intros c Hc.
  apply in_map_iff in Hc as (a & <- & _).
  pose proof (N_ascii_bounded a) as Ha. unfold is_surrogate.
  apply negb_true_iff, andb_false_iff. left. apply N.leb_gt. lia.
Qed.

Lemma encodable_dec (n : nat) : encodable (dec n) = true.
Proof. apply encodable_lit. Qed.

Lemma encodable_cell_header (i : nat) : encodable (cell_header i) = true.
Proof.
  unfold cell_header. rewrite !encodable_app, encodable_lit, encodable_dec.
  reflexivity.
Qed.

Lemma encodable_separator : encodable CELL_SEPARATOR = true.
Proof. reflexivity. Qed.

Lemma encodable_concat (chunks : list str) :
  encodable (concat chunks) = forallb encodable chunks.
Proof.
  induction chunks as [|c chunks IH]; [reflexivity|].
  simpl. now rewrite encodable_app, IH.
Qed.

Lemma out_write_ok (chunk : str) (out : list str) :
  encodable chunk = true -> out_write chunk out = (out ++ [chunk], Ok tt).
Proof. intros Hc. unfold out_write. now rewrite Hc. Qed.

Lemma out_write_inv (chunk : str) (out out' : list str) :
  out_write chunk out = (out', Ok tt) ->
  encodable chunk = true /\ out' = out ++ [chunk].
Proof.
  unfold out_write. destruct (encodable chunk); [|discriminate].
  now intros [= <-].
Qed.

Lemma prog_bind_unfold {S A B} (m : prog S A) (f : A -> prog S B) (s : S) :
  (m ≫= f) s
  = match m s with
    | (s', Ok a) => f a s'
    | (s', Raise e) => (s', Raise e)
    end.
Proof. reflexivity. Qed.

Lemma prog_bind_Ok {S A B} (m : prog S A) (f : A -> prog S B) (s s' : S) (a : A) :
  m s = (s', Ok a) -> (m ≫= f) s = f a s'.
Proof. intros Hm. rewrite prog_bind_unfold, Hm. reflexivity. Qed.

Lemma prog_bind_Ok_inv {S A B} (m : prog S A) (f : A -> prog S B)
    (s s2 : S) (b : B) :
  (m ≫= f) s = (s2, Ok b) -> exists s1 a, m s = (s1, Ok a) /\ f a s1 = (s2, Ok b).
Proof.
  rewrite prog_bind_unfold. destruct (m s) as [s1 [a|e]]; [eauto|discriminate].
Qed.

Section DocumentRenderer.
Context `{Runtime}.

(** Every block starts with its [Cell type: ] line. *)
Lemma extract_prefix (cell : json) (b : str) :
  extract_text_from_cell cell = Ok b -> exists rest, b = lit "Cell type: " ++ rest.
Proof.
  unfold extract_text_from_cell. intros Hb.
  apply bind_Ok_inv in Hb as (ty & _ & Hb).
  apply bind_Ok_inv in Hb as (src & _ & Hb).
  apply bind_Ok_inv in Hb as (source & _ & Hb).
  apply bind_Ok_inv in Hb as (parts & Hparts & [= <-]).
  assert (exists l tl, parts = (lit "Cell type: " ++ py_format ty) :: l :: tl)
    as (l & tl & ->).
  { revert Hparts. destruct (eq_str ty (lit "markdown")).
    - intros [= <-]. now do 2 eexists.
    - destruct (eq_str ty (lit "code")).
      + intros Hp. apply bind_Ok_inv in Hp as (outs & _ & Hp). revert Hp.
        destruct (truthy _).
        * intros Hp. apply bind_Ok_inv in Hp as (items & _ & Hp).
          apply bind_Ok_inv in Hp as (ol & _ & [= <-]). now do 2 eexists.
        * intros [= <-]. now do 2 eexists.
      + intros [= <-]. now do 2 eexists. }
  eexists. unfold nl_join. cbn [join]. rewrite <- app_assoc. reflexivity.
Qed.

Lemma cells_loop_ok (cs : list json) (blocks : list str) :
  mapR extract_text_from_cell cs = Ok blocks ->
  forallb encodable blocks = true ->
  forall (i : nat) (out : list str),
    cells_loop i cs out = (out ++ cell_chunks i blocks, Ok tt).
Proof.
  revert blocks. induction cs as [|cell cs IH]; intros blocks Hb Henc i out.
  - injection Hb as <-. simpl. now rewrite app_nil_r.
  - simpl in Hb. apply bind_Ok_inv in Hb as (b & Hcell & Hb).
    apply bind_Ok_inv in Hb as (bs & Hbs & [= <-]).
    simpl in Henc. apply andb_true_iff in Henc as [Hb1 Hbs1].
    cbn [cells_loop cell_chunks].
    rewrite (prog_bind_Ok _ _ _ _ _ (out_write_ok _ out (encodable_cell_header i))).
    unfold lift at 1. rewrite prog_bind_unfold, Hcell.
    rewrite (prog_bind_Ok _ _ _ _ _ (out_write_ok _ _ Hb1)).
    rewrite (prog_bind_Ok _ _ _ _ _ (out_write_ok _ _ encodable_separator)).
    rewrite (IH bs Hbs Hbs1). rewrite <- !app_assoc. reflexivity.
Qed.

Lemma cells_loop_inv (cs : list json) :
  forall (i : nat) (out out' : list str),
    cells_loop i cs out = (out', Ok tt) ->
    exists blocks,
      mapR extract_text_from_cell cs = Ok blocks
      /\ forallb encodable blocks = true
      /\ out' = out ++ cell_chunks i blocks.
Proof.
  induction cs as [|cell cs IH]; intros i out out' Hrun.
  - injection Hrun as <-. exists []. simpl. now rewrite app_nil_r.
  - cbn [cells_loop] in Hrun.
    apply prog_bind_Ok_inv in Hrun as (o1 & [] & Hw1 & Hrun).
    apply out_write_inv in Hw1 as [_ ->].
    apply prog_bind_Ok_inv in Hrun as (o2 & b & Hcell & Hrun).
    unfold lift in Hcell. injection Hcell as <- Hcell.
    apply prog_bind_Ok_inv in Hrun as (o3 & [] & Hw3 & Hrun).
    apply out_write_inv in Hw3 as [Hb ->].
    apply prog_bind_Ok_inv in Hrun as (o4 & [] & Hw4 & Hrun).
    apply out_write_inv in Hw4 as [_ ->].
    apply IH in Hrun as (bs & Hbs & Henc & ->).
    exists (b :: bs). split; [|split].
    + simpl. now rewrite Hcell, bind_Ok, Hbs.
    + simpl. now rewrite Hb, Henc.
    + cbn [cell_chunks]. now rewrite <- !app_assoc.
Qed.

(** The value the script iterates over: [nb.get("cells", []) or []]. *)
Lemma cells_value (m : list (str * json)) (cs : list json) :
  has_cells m cs ->
  iter (py_or (default (JArr []) (assoc (lit "cells") m)) (JArr [])) = Ok cs.
Proof.
  intros [m' E|m' E|m' cs' E]; rewrite E; try reflexivity.
  simpl. now destruct cs'.
Qed.

Lemma kernelspec_value (m : list (str * json)) (ks : json) :
  has_kernelspec m ks ->
  (metadata ← dict_get (JObj m) (lit "metadata") (JObj []);
   dict_get metadata (lit "kernelspec") (JObj [])) = Ok ks.
Proof. intros [m' E|m' md E]; simpl; rewrite E; reflexivity. Qed.

Lemma write_notebook_unfold (p : str) (nb cells : json) (out : list str) :
  write_notebook p nb cells out
  = match out_write (lit "Notebook: " ++ basename p ++ NL) out with
    | (o1, Raise e) => (o1, Raise e)
    | (o1, Ok _) =>
        match (metadata ← dict_get nb (lit "metadata") (JObj []);
               dict_get metadata (lit "kernelspec") (JObj [])) with
        | Raise e => (o1, Raise e)
        | Ok ks =>
            match out_write (lit "Kernelspec: " ++ py_format ks ++ NL) o1 with
            | (o2, Raise e) => (o2, Raise e)
            | (o2, Ok _) =>
                match out_write CELL_SEPARATOR o2 with
                | (o3, Raise e) => (o3, Raise e)
                | (o3, Ok _) =>
                    match iter cells with
                    | Raise e => (o3, Raise e)
                    | Ok items => cells_loop 1 items o3
                    end
                end
            end
        end
    end.
Proof.
  unfold write_notebook. rewrite prog_bind_unfold.
  destruct (out_write _ out) as [o1 [[]|e]]; [|reflexivity].
  rewrite prog_bind_unfold. unfold lift at 1.
  destruct (dict_get nb _ _) as [md|e]; [|reflexivity].
  rewrite prog_bind_unfold. unfold lift at 1. rewrite bind_Ok.
  destruct (dict_get md _ _) as [ks|e]; [|reflexivity].
  rewrite prog_bind_unfold.
  destruct (out_write _ o1) as [o2 [[]|e]]; [|reflexivity].
  rewrite prog_bind_unfold. unfold out_write at 1, CELL_SEPARATOR at 1.
  change (encodable (NL ++ repeat_char 45 80 ++ NL)) with true. cbn iota.
  rewrite prog_bind_unfold. unfold lift.
  destruct (iter cells) as [items|e]; reflexivity.
Qed.

Lemma write_notebook_ok (p : str) (m : list (str * json)) (ks : json)
    (cs : list json) (blocks : list str) :
  has_kernelspec m ks -> has_cells m cs ->
  mapR extract_text_from_cell cs = Ok blocks ->
  encodable (rendered_text (basename p) ks blocks) = true ->
  write_notebook p (JObj m)
    (py_or (default (JArr []) (assoc (lit "cells") m)) (JArr [])) []
  = (rendered_chunks (basename p) ks blocks, Ok tt).
Proof.
  intros Hks Hcs Hblocks Henc.
  unfold rendered_text in Henc. rewrite encodable_concat in Henc.
  unfold rendered_chunks, header_chunks in Henc |- *.
  cbn [app forallb] in Henc.
  apply andb_true_iff in Henc as [H1 Henc].
  apply andb_true_iff in Henc as [H2 Henc].
  apply andb_true_iff in Henc as [_ Henc].
  assert (Hb : forallb encodable blocks = true).
  { clear -Henc. revert Henc. generalize 1.
    induction blocks as [|b bs IH]; intros i Henc; [reflexivity|].
    cbn [cell_chunks app forallb] in Henc.
    apply andb_true_iff in Henc as [_ Henc].
    apply andb_true_iff in Henc as [Hb Henc].
    apply andb_true_iff in Henc as [_ Henc].
    simpl. rewrite Hb. exact (IH _ Henc). }
  rewrite write_notebook_unfold, (out_write_ok _ _ H1), (kernelspec_value m ks Hks).
  rewrite (out_write_ok _ _ H2), (out_write_ok _ _ encodable_separator).
  rewrite (cells_value m cs Hcs), (cells_loop_ok cs blocks Hblocks Hb).
  reflexivity.
Qed.

Lemma write_notebook_inv (p : str) (m : list (str * json)) (cs : list json)
    (out : list str) :
  has_cells m cs ->
  write_notebook p (JObj m)
    (py_or (default (JArr []) (assoc (lit "cells") m)) (JArr [])) [] = (out, Ok tt) ->
  exists ks blocks,
    mapR extract_text_from_cell cs = Ok blocks
    /\ out = rendered_chunks (basename p) ks blocks.
Proof.
  intros Hcs. rewrite write_notebook_unfold, (cells_value m cs Hcs).
  destruct (out_write _ []) as [o1 [[]|e]] eqn:E1; [|discriminate].
  apply out_write_inv in E1 as [_ ->].
  destruct (_ ≫= _) as [ks|e]; [|discriminate].
  destruct (out_write _ _) as [o2 [[]|e]] eqn:E2; [|discriminate].
  apply out_write_inv in E2 as [_ ->].
  destruct (out_write CELL_SEPARATOR _) as [o3 [[]|e]] eqn:E3; [|discriminate].
  apply out_write_inv in E3 as [_ ->].
  intros Hloop. apply cells_loop_inv in Hloop as (blocks & Hb & _ & ->).
  exists ks, blocks. split; [exact Hb|reflexivity].
Qed.

Lemma convert_notebook_unfold (ipynb txt : str) (w : world) :
  convert_notebook ipynb txt w
  = match read_text w ipynb with
    | Raise e => (w, Raise e)
    | Ok text =>
        match json_load text with
        | Raise e => (w, Raise e)
        | Ok nb =>
            match dict_get nb (lit "cells") (JArr []) with
            | Raise e => (w, Raise e)
            | Ok cells =>
                if isdir w txt then (w, Raise IsADirectoryError)
                else
                  let '(out, r) := write_notebook ipynb nb (py_or cells (JArr [])) [] in
                  ({| fs := <[txt := File (concat out)]> (fs w);
                      stdout := stdout w |}, r)
            end
        end
    end.
Proof.
  unfold convert_notebook. rewrite prog_bind_unfold.
  destruct (read_text w ipynb) as [text|e]; [|reflexivity].
  rewrite prog_bind_unfold. unfold lift at 1.
  destruct (json_load text) as [nb|e]; [|reflexivity].
  rewrite prog_bind_unfold. unfold lift at 1.
  destruct (dict_get nb _ _) as [cells|e]; [|reflexivity].
  rewrite prog_bind_unfold. unfold open_w, isdir.
  destruct (fs w !! txt) as [[content|names]|] eqn:E; try reflexivity.
  - unfold with_out. cbn [fs stdout]. destruct (write_notebook _ _ _ _) as [out r].
    now rewrite insert_insert_eq.
  - unfold with_out. cbn [fs stdout]. destruct (write_notebook _ _ _ _) as [out r].
    now rewrite insert_insert_eq.
Qed.

(** The text of the document, chunk by chunk. *)
Lemma concat_cell_chunks (blocks : list str) (i : nat) :
  concat (cell_chunks i blocks)
  = concat (imap (fun k b => lit "Cell " ++ dec (i + k) ++ NL ++ b ++ CELL_SEPARATOR)
              blocks).
Proof.
  revert i. induction blocks as [|b bs IH]; intros i; [reflexivity|].
  cbn [cell_chunks]. rewrite imap_cons. cbn [concat app].
  rewrite IH, Nat.add_0_r. unfold cell_header. rewrite <- !app_assoc.
  repeat (apply (f_equal2 app); [reflexivity|]).
  f_equal. apply imap_ext. intros k x _. simpl. now rewrite Nat.add_succ_r.
Qed.

Lemma cell_chunks_last (blocks : list str) (i : nat) :
  blocks <> [] -> exists pre, cell_chunks i blocks = pre ++ [CELL_SEPARATOR].
Proof.
  revert i. induction blocks as [|b bs IH]; intros i Hne; [contradiction|].
  cbn [cell_chunks]. destruct bs as [|b' bs].
  - exists [cell_header i; b]. reflexivity.
  - destruct (IH (S i)) as [pre Hpre]; [discriminate|].
    rewrite Hpre. exists ([cell_header i; b; CELL_SEPARATOR] ++ pre).
    now rewrite <- app_assoc.
Qed.

(** C1: for a well-formed notebook document the text written to the
    output file is the line [Notebook: <base name>], the line rendering
    the kernelspec value (an empty mapping when absent), the separator,
    and for each cell in input order, numbered from 1, the line [Cell N],
    the block of the cell and the separator; so the text ends with a
    separator. *)
Theorem convert_notebook_text :
  forall (w : world) (ipynb txt text : str) (m : list (str * json)) (ks : json)
         (cs : list json) (blocks : list str),
    fs w !! ipynb = Some (File text) ->
    json_loads text = Some (JObj m) ->
    has_kernelspec m ks -> has_cells m cs ->
    mapR extract_text_from_cell cs = Ok blocks ->
    isdir w txt = false ->
    encodable (rendered_text (basename ipynb) ks blocks) = true ->
    convert_notebook ipynb txt w
    = ({| fs := <[txt := File (rendered_text (basename ipynb) ks blocks)]> (fs w);
          stdout := stdout w |}, Ok tt)
    /\ rendered_text (basename ipynb) ks blocks
       = lit "Notebook: " ++ basename ipynb ++ NL
         ++ lit "Kernelspec: " ++ py_format ks ++ NL
         ++ CELL_SEPARATOR
         ++ concat (imap (fun k b => lit "Cell " ++ dec (S k) ++ NL ++ b ++ CELL_SEPARATOR)
                      blocks)
    /\ CELL_SEPARATOR = NL ++ replicate 80 45%N ++ NL
    /\ exists body, rendered_text (basename ipynb) ks blocks = body ++ CELL_SEPARATOR.
Proof.
  intros w ipynb txt text m ks cs blocks Hfile Hload Hks Hcs Hblocks Hdir Henc.
  split; [|split; [|split]].
  - rewrite convert_notebook_unfold. unfold read_text, json_load.
    rewrite Hfile, Hload. cbn [dict_get]. rewrite Hdir.
    rewrite (write_notebook_ok ipynb m ks cs blocks Hks Hcs Hblocks Henc).
    reflexivity.
  - unfold rendered_text, rendered_chunks, header_chunks.
    rewrite concat_app, concat_cell_chunks. cbn [concat].
    rewrite app_nil_r, <- !app_assoc. reflexivity.
  - reflexivity.
  - unfold rendered_text, rendered_chunks.
    destruct blocks as [|b bs].
    + exists (lit "Notebook: " ++ basename ipynb ++ NL
              ++ lit "Kernelspec: " ++ py_format ks ++ NL).
      unfold header_chunks. cbn [cell_chunks app concat].
      now rewrite app_nil_r, <- !app_assoc.
    + destruct (cell_chunks_last (b :: bs) 1) as [pre Hpre]; [discriminate|].
      rewrite Hpre. exists (concat (header_chunks (basename ipynb) ks ++ pre)).
      rewrite app_assoc, concat_app. cbn [concat]. now rewrite app_nil_r.
Qed.

(** *** The [Cell N] headers *)

Lemma dec_head_digit (n : nat) : exists d rest, dec n = d :: rest /\ is_digit d = true.
Proof.
  unfold dec. destruct (Nat.to_uint n); simpl; do 2 eexists; split; reflexivity.
Qed.

Lemma is_cell_header_header (i : nat) : is_cell_header (cell_header i) = true.
Proof.
  unfold cell_header. destruct (dec_head_digit i) as (d & rest & -> & Hd).
  unfold is_cell_header. simpl. exact Hd.
Qed.

Lemma is_cell_header_block (cell : json) (b : str) :
  extract_text_from_cell cell = Ok b -> is_cell_header b = false.
Proof.
  intros Hb. apply extract_prefix in Hb as [rest ->].
  unfold is_cell_header. simpl. apply andb_false_r.
Qed.

Lemma is_cell_header_separator : is_cell_header CELL_SEPARATOR = false.
Proof. reflexivity. Qed.

Lemma is_cell_header_preamble (name : str) (ks : json) :
  filter (fun c => is_cell_header c = true) (header_chunks name ks) = [].
Proof. reflexivity. Qed.

Lemma mapR_lookup {A B} (f : A -> result B) (l : list A) (r : list B) (n : nat) (x : A) :
  mapR f l = Ok r -> l !! n = Some x -> exists y, r !! n = Some y /\ f x = Ok y.
Proof.
  revert r n. induction l as [|a l IH]; intros r n Hr Hn; [discriminate|].
  simpl in Hr. apply bind_Ok_inv in Hr as (y & Hy & Hr).
  apply bind_Ok_inv in Hr as (ys & Hys & [= <-]).
  destruct n as [|n].
  - injection Hn as <-. exists y. now split.
  - simpl in Hn. destruct (IH ys n Hys Hn) as (z & Hz & Hfz). exists z. now split.
Qed.

Lemma filter_cell_chunks (cs : list json) (blocks : list str) :
  mapR extract_text_from_cell cs = Ok blocks ->
  forall i : nat,
    filter (fun c => is_cell_header c = true) (cell_chunks i blocks)
    = cell_header <$> seq i (length cs).
Proof.
  revert blocks. induction cs as [|cell cs IH]; intros blocks Hb i.
  - injection Hb as <-. reflexivity.
  - simpl in Hb. apply bind_Ok_inv in Hb as (b & Hcell & Hb).
    apply bind_Ok_inv in Hb as (bs & Hbs & [= <-]).
    cbn [cell_chunks app length seq]. rewrite fmap_cons.
    rewrite filter_cons_True by apply is_cell_header_header.
    rewrite filter_cons_False
      by (rewrite (is_cell_header_block cell b Hcell); discriminate).
    rewrite filter_cons_False by (rewrite is_cell_header_separator; discriminate).
    now rewrite (IH bs Hbs).
Qed.

Lemma cell_chunks_lookup (blocks : list str) (n : nat) (b : str) :
  blocks !! n = Some b ->
  forall i : nat,
    cell_chunks i blocks !! (3 * n) = Some (cell_header (i + n))
    /\ cell_chunks i blocks !! (3 * n + 1) = Some b
    /\ cell_chunks i blocks !! (3 * n + 2) = Some CELL_SEPARATOR.
Proof.
  revert n. induction blocks as [|b0 bs IH]; intros n Hn i; [discriminate|].
  destruct n as [|n].
  - injection Hn as <-. rewrite Nat.add_0_r. repeat split.
  - simpl in Hn. destruct (IH n Hn (S i)) as (H1 & H2 & H3).
    replace (3 * S n) with (S (S (S (3 * n)))) by lia.
    replace (i + S n) with (S i + n) by lia.
    cbn [cell_chunks app]. repeat split; simpl; assumption.
Qed.

Lemma length_cell_chunks (blocks : list str) (i : nat) :
  length (cell_chunks i blocks) = 3 * length blocks.
Proof.
  revert i. induction blocks as [|b bs IH]; intros i; [reflexivity|].
  cbn [cell_chunks app length]. rewrite IH. lia.
Qed.

(** Whatever happens in the loop, the headers written are those of the
    first cells, in order. *)
Lemma cells_loop_headers (cs : list json) :
  forall (i : nat) (out out' : list str) (r : result unit),
    cells_loop i cs out = (out', r) ->
    exists k,
      k <= length cs
      /\ filter (fun c => is_cell_header c = true) out'
         = filter (fun c => is_cell_header c = true) out ++ (cell_header <$> seq i k).
Proof.
  induction cs as [|cell cs IH]; intros i out out' r Hrun.
  - injection Hrun as <- _. exists 0. split; [reflexivity|]. now rewrite app_nil_r.
  - cbn [cells_loop] in Hrun.
    rewrite (prog_bind_Ok _ _ _ _ _ (out_write_ok _ out (encodable_cell_header i)))
      in Hrun.
    assert (Hone : filter (fun c => is_cell_header c = true) (out ++ [cell_header i])
                   = filter (fun c => is_cell_header c = true) out
                     ++ (cell_header <$> seq i 1)).
    { rewrite filter_app. f_equal.
      now rewrite filter_cons_True by apply is_cell_header_header. }
    rewrite prog_bind_unfold in Hrun. unfold lift at 1 in Hrun.
    destruct (extract_text_from_cell cell) as [b|e] eqn:Hcell.
    + rewrite prog_bind_unfold in Hrun. unfold out_write at 1 in Hrun.
      destruct (encodable b).
      * rewrite (prog_bind_Ok _ _ _ _ _ (out_write_ok _ _ encodable_separator)) in Hrun.
        apply IH in Hrun as (k & Hk & Hfilter). exists (S k). split; [simpl; lia|].
        rewrite Hfilter, !filter_app.
        rewrite (filter_cons_True _ (cell_header i)) by apply is_cell_header_header.
        rewrite (filter_cons_False _ b)
          by (rewrite (is_cell_header_block cell b Hcell); discriminate).
        rewrite (filter_cons_False _ CELL_SEPARATOR)
          by (rewrite is_cell_header_separator; discriminate).
        rewrite filter_nil, !app_nil_r, <- app_assoc. reflexivity.
      * injection Hrun as <- _. exists 1. split; [simpl; lia|exact Hone].
    + injection Hrun as <- _. exists 1. split; [simpl; lia|exact Hone].
Qed.

Lemma write_notebook_headers (p : str) (nb cells : json) (cs : list json)
    (out : list str) (r : result unit) :
  iter cells = Ok cs ->
  write_notebook p nb cells [] = (out, r) ->
  exists k,
    k <= length cs
    /\ filter (fun c => is_cell_header c = true) out = cell_header <$> seq 1 k.
Proof.
  intros Hcs. rewrite write_notebook_unfold, Hcs.
  assert (Hnone : forall out0 : list str,
             filter (fun c => is_cell_header c = true) out0 = [] ->
             exists k,
               k <= length cs
               /\ filter (fun c => is_cell_header c = true) out0 = cell_header <$> seq 1 k).
  { intros out0 ->. exists 0. split; [lia|reflexivity]. }
  unfold out_write at 1. destruct (encodable _).
  2:{ intros [= <- _]. now apply Hnone. }
  destruct (_ ≫= _) as [ks|e].
  2:{ intros [= <- _]. now apply Hnone. }
  unfold out_write at 1. destruct (encodable _).
  2:{ intros [= <- _]. now apply Hnone. }
  rewrite (out_write_ok _ _ encodable_separator).
  intros Hloop. apply cells_loop_headers in Hloop as (k & Hk & Hfilter).
  exists k. split; [exact Hk|]. rewrite Hfilter. reflexivity.
Qed.

(** The chunks handed to [out.write]: the [Cell N] headers among them
    carry the indices 1, 2, ... in this order and never outnumber the
    elements of the [cells] array; when the conversion completes they are
    as many as the cells, and the chunk after the N-th header is the
    rendering of the N-th cell. *)
Lemma written_chunks_follow_cells :
  forall (p : str) (m : list (str * json)) (cs : list json) (out : list str)
         (r : result unit),
    has_cells m cs ->
    write_notebook p (JObj m)
      (py_or (default (JArr []) (assoc (lit "cells") m)) (JArr [])) [] = (out, r) ->
    (exists k,
        k <= length cs
        /\ filter (fun c => is_cell_header c = true) out = cell_header <$> seq 1 k)
    /\ (r = Ok tt ->
        length (filter (fun c => is_cell_header c = true) out) = length cs
        /\ filter (fun c => is_cell_header c = true) out
           = cell_header <$> seq 1 (length cs)
        /\ length out = 3 + 3 * length cs
        /\ (forall (n : nat) (cell : json),
               cs !! n = Some cell ->
               exists b,
                 extract_text_from_cell cell = Ok b
                 /\ out !! (3 + 3 * n) = Some (cell_header (S n))
                 /\ out !! (3 + 3 * n + 1) = Some b
                 /\ out !! (3 + 3 * n + 2) = Some CELL_SEPARATOR)).
Proof.
  intros p m cs out r Hcs Hrun. split.
  { exact (write_notebook_headers p _ _ cs out r (cells_value m cs Hcs) Hrun). }
  intros ->.
  destruct (write_notebook_inv p m cs out Hcs Hrun) as (ks & blocks & Hb & ->).
  assert (Hfilter :
    filter (fun c => is_cell_header c = true) (rendered_chunks (basename p) ks blocks)
    = cell_header <$> seq 1 (length cs)).
  { unfold rendered_chunks. rewrite filter_app, is_cell_header_preamble.
    exact (filter_cell_chunks cs blocks Hb 1). }
  split; [|split; [|split]].
  - now rewrite Hfilter, length_fmap, length_seq.
  - exact Hfilter.
  - unfold rendered_chunks. rewrite length_app. cbn [header_chunks length].
    now rewrite length_cell_chunks, (mapR_length _ _ _ Hb).
  - intros n cell Hn.
    destruct (mapR_lookup _ _ _ _ _ Hb Hn) as (b & Hbn & Hcell).
    destruct (cell_chunks_lookup blocks n b Hbn 1) as (H1 & H2 & H3).
    exists b. unfold rendered_chunks, header_chunks. cbn [app].
    repeat split; [exact Hcell|exact H1|exact H2|exact H3].
Qed.

(** *** The [Cell N] lines of the output text *)

Lemma split_lines_cons (s : str) : exists l ls, split_lines s = l :: ls.
Proof.
  induction s as [|c s (l & ls & IH)]; [now eexists; eexists|].
  cbn [split_lines]. destruct (c =? 10)%N; [now eexists; eexists|].
  rewrite IH. now eexists; eexists.
Qed.

Lemma split_lines_app_nl (a b : str) :
  split_lines (a ++ NL ++ b) = split_lines a ++ split_lines b.
Proof.
  induction a as [|c a IH].
  - reflexivity.
  - cbn [app split_lines]. destruct (c =? 10)%N.
    + cbn [app]. f_equal. exact IH.
    + cbn [app] in IH. rewrite IH.
      destruct (split_lines_cons a) as (l & ls & ->). reflexivity.
Qed.

Lemma split_lines_one_line (s : str) :
  forallb (fun c => negb (c =? 10)%N) s = true -> split_lines s = [s].
Proof.
  induction s as [|c s IH]; [reflexivity|].
  cbn [forallb split_lines]. intros [Hc Hs]%andb_true_iff.
  apply negb_true_iff in Hc. rewrite Hc, (IH Hs). reflexivity.
Qed.

Lemma header_lines_app_nl (a b : str) :
  header_lines (a ++ NL ++ b) = header_lines a ++ header_lines b.
Proof. unfold header_lines. now rewrite split_lines_app_nl, filter_app. Qed.

Lemma lit_String (c : ascii) (s : string) : lit (String c s) = N_of_ascii c :: lit s.
Proof. reflexivity. Qed.

Lemma digits_of_uint (d : Decimal.uint) :
  forallb is_digit (lit (NilEmpty.string_of_uint d)) = true.
Proof. induction d; cbn [NilEmpty.string_of_uint]; rewrite ?lit_String; simpl; auto. Qed.

Lemma dec_digits (n : nat) : forallb is_digit (dec n) = true.
Proof.
  unfold dec, NilZero.string_of_uint.
  destruct (Nat.to_uint n); first [reflexivity|apply digits_of_uint].
Qed.

Lemma digits_one_line (s : str) :
  forallb is_digit s = true -> forallb (fun c => negb (c =? 10)%N) s = true.
Proof.
  induction s as [|c s IH]; [reflexivity|].
  cbn [forallb]. intros [Hc Hs]%andb_true_iff. rewrite (IH Hs), andb_true_r.
  unfold is_digit in Hc. apply andb_true_iff in Hc as [Hc _].
  apply N.leb_le in Hc. apply negb_true_iff, N.eqb_neq. lia.
Qed.

Lemma header_lines_header (i : nat) :
  header_lines (lit "Cell " ++ dec i) = [lit "Cell " ++ dec i].
Proof.
  unfold header_lines. rewrite split_lines_one_line.
  - rewrite filter_cons_True; [reflexivity|].
    unfold is_header_line.
    change (take 5 (lit "Cell " ++ dec i)) with (lit "Cell ").
    change (drop 5 (lit "Cell " ++ dec i)) with (dec i).
    rewrite dec_digits, andb_true_r, bool_decide_eq_true_2 by reflexivity.
    destruct (dec_head_digit i) as (d & rest & -> & _). reflexivity.
  - rewrite forallb_app, (digits_one_line _ (dec_digits i)). reflexivity.
Qed.

Lemma header_lines_dashes : header_lines (repeat_char 45%N 80) = [].
Proof. reflexivity. Qed.

(** The text written for the cells, after the dashes of the separator
    before them. *)
Lemma header_lines_cells (blocks : list str) :
  Forall (fun b => header_lines b = []) blocks ->
  forall i : nat,
    header_lines (repeat_char 45%N 80 ++ NL ++ concat (cell_chunks i blocks))
    = (fun k => lit "Cell " ++ dec k) <$> seq i (length blocks).
Proof.
  induction 1 as [|b bs Hb _ IH]; intros i.
  - cbn [cell_chunks concat length seq fmap list_fmap].
    now rewrite header_lines_app_nl, header_lines_dashes.
  - cbn [cell_chunks app concat length seq]. rewrite fmap_cons.
    unfold cell_header, CELL_SEPARATOR at 1.
    replace (repeat_char 45%N 80 ++ NL
             ++ (lit "Cell " ++ dec i ++ NL)
             ++ b ++ (NL ++ repeat_char 45%N 80 ++ NL)
             ++ concat (cell_chunks (S i) bs))
      with (repeat_char 45%N 80 ++ NL
            ++ (lit "Cell " ++ dec i) ++ NL
            ++ b ++ NL
            ++ (repeat_char 45%N 80 ++ NL ++ concat (cell_chunks (S i) bs)))
      by (now rewrite <- !app_assoc).
    do 3 rewrite header_lines_app_nl.
    rewrite header_lines_dashes, header_lines_header, Hb, IH. reflexivity.
Qed.

Lemma header_lines_rendered (name : str) (ks : json) (blocks : list str) :
  header_lines (lit "Notebook: " ++ name) = [] ->
  header_lines (lit "Kernelspec: " ++ py_format ks) = [] ->
  Forall (fun b => header_lines b = []) blocks ->
  header_lines (rendered_text name ks blocks)
  = (fun k => lit "Cell " ++ dec k) <$> seq 1 (length blocks).
Proof.
  intros Hname Hks Hblocks. unfold rendered_text, rendered_chunks, header_chunks.
  rewrite concat_app. cbn [concat]. unfold CELL_SEPARATOR at 1.
  replace (((lit "Notebook: " ++ name ++ NL)
            ++ (lit "Kernelspec: " ++ py_format ks ++ NL)
            ++ (NL ++ repeat_char 45%N 80 ++ NL) ++ [])
           ++ concat (cell_chunks 1 blocks))
    with ((lit "Notebook: " ++ name) ++ NL
          ++ (lit "Kernelspec: " ++ py_format ks) ++ NL
          ++ [] ++ NL
          ++ (repeat_char 45%N 80 ++ NL ++ concat (cell_chunks 1 blocks)))
    by (rewrite app_nil_r, <- !app_assoc; reflexivity).
  do 3 rewrite header_lines_app_nl.
  rewrite Hname, Hks, (header_lines_cells _ Hblocks). reflexivity.
Qed.

(** C2, for a notebook whose own text has no line of the form [Cell N]:
    when the conversion completes, the output text is the two header
    lines and the separator followed, for each element of [cells] in
    order, by the line [Cell N] (N = 1, 2, ...), the rendering of the
    N-th cell and the separator; when neither the name of the notebook,
    nor the kernelspec line, nor any rendered block holds a line of the
    form [Cell N], the lines of that form in the output text are
    [Cell 1], ..., [Cell n] in this order, [n] being the number of
    elements of [cells]. *)
Theorem cell_headers_follow_cells :
  forall (w : world) (ipynb txt text : str) (m : list (str * json)) (ks : json)
         (cs : list json) (blocks : list str),
    fs w !! ipynb = Some (File text) ->
    json_loads text = Some (JObj m) ->
    has_kernelspec m ks -> has_cells m cs ->
    mapR extract_text_from_cell cs = Ok blocks ->
    isdir w txt = false ->
    encodable (rendered_text (basename ipynb) ks blocks) = true ->
    header_lines (lit "Notebook: " ++ basename ipynb) = [] ->
    header_lines (lit "Kernelspec: " ++ py_format ks) = [] ->
    Forall (fun b => header_lines b = []) blocks ->
    exists out,
      convert_notebook ipynb txt w
      = ({| fs := <[txt := File out]> (fs w); stdout := stdout w |}, Ok tt)
      /\ out
         = lit "Notebook: " ++ basename ipynb ++ NL
           ++ lit "Kernelspec: " ++ py_format ks ++ NL
           ++ CELL_SEPARATOR
           ++ concat (imap (fun k b => lit "Cell " ++ dec (S k) ++ NL ++ b ++ CELL_SEPARATOR)
                        blocks)
      /\ length blocks = length cs
      /\ (forall (n : nat) (cell : json),
             cs !! n = Some cell ->
             exists b, blocks !! n = Some b /\ extract_text_from_cell cell = Ok b)
      /\ header_lines out = (fun k => lit "Cell " ++ dec k) <$> seq 1 (length cs)
      /\ length (header_lines out) = length cs.
Proof.
  intros w ipynb txt text m ks cs blocks Hfile Hload Hks Hcs Hblocks Hdir Henc
    Hname Hkline Hbl.
  exists (rendered_text (basename ipynb) ks blocks).
  assert (Hheaders : header_lines (rendered_text (basename ipynb) ks blocks)
                     = (fun k => lit "Cell " ++ dec k) <$> seq 1 (length cs)).
  { rewrite (header_lines_rendered _ _ _ Hname Hkline Hbl).
    now rewrite (mapR_length _ _ _ Hblocks). }
  split; [|split; [|split; [|split; [|split]]]].
  - rewrite convert_notebook_unfold. unfold read_text, json_load.
    rewrite Hfile, Hload. cbn [dict_get]. rewrite Hdir.
    rewrite (write_notebook_ok ipynb m ks cs blocks Hks Hcs Hblocks Henc).
    reflexivity.
  - unfold rendered_text, rendered_chunks, header_chunks.
    rewrite concat_app, concat_cell_chunks. cbn [concat].
    rewrite app_nil_r, <- !app_assoc. reflexivity.
  - exact (mapR_length _ _ _ Hblocks).
  - intros n cell Hn. exact (mapR_lookup _ _ _ _ _ Hblocks Hn).
  - exact Hheaders.
  - now rewrite Hheaders, length_fmap, length_seq.
Qed.

End DocumentRenderer.

(** ** Conversions in the file system *)

Section BatchDriver.
Context `{Runtime}.

(** A conversion only touches the output path and prints nothing. *)
Lemma convert_notebook_frame (ipynb txt : str) (w : world) :
  stdout (convert_notebook ipynb txt w).1 = stdout w
  /\ forall p : str, p <> txt -> fs (convert_notebook ipynb txt w).1 !! p = fs w !! p.
Proof.
  rewrite convert_notebook_unfold.
  destruct (read_text w ipynb) as [text|e]; [|now split].
  destruct (json_load text) as [nb|e]; [|now split].
  destruct (dict_get nb _ _) as [cells|e]; [|now split].
  destruct (isdir w txt); [now split|].
  destruct (write_notebook _ _ _ _) as [out r]. cbn [fst fs stdout].
  split; [reflexivity|]. intros p Hp. now rewrite lookup_insert_ne.
Qed.

Lemma convert_notebook_keeps_dir (ipynb txt d : str) (w : world) :
  isdir w d = true -> isdir (convert_notebook ipynb txt w).1 d = true.
Proof.
  intros Hd. destruct (decide (d = txt)) as [->|Hne].
  - rewrite convert_notebook_unfold.
    destruct (read_text w ipynb) as [text|e]; [|exact Hd].
    destruct (json_load text) as [nb|e]; [|exact Hd].
    destruct (dict_get nb _ _) as [cells|e]; [|exact Hd].
    rewrite Hd. exact Hd.
  - unfold isdir in *.
    now rewrite (proj2 (convert_notebook_frame ipynb txt w) d Hne).
Qed.

(** C6: the text a conversion writes depends on the input document only:
    two runs that read the same file write the same text, whatever else
    the file system holds and wherever the output goes; and converting
    the same input a second time leaves the output as the first run
    wrote it. *)
Theorem conversion_deterministic :
  (forall (w1 w2 w1' : world) (ipynb txt1 txt2 : str),
      fs w1 !! ipynb = fs w2 !! ipynb ->
      convert_notebook ipynb txt1 w1 = (w1', Ok tt) ->
      isdir w2 txt2 = false ->
      exists text,
        fs w1' !! txt1 = Some (File text)
        /\ convert_notebook ipynb txt2 w2
           = ({| fs := <[txt2 := File text]> (fs w2); stdout := stdout w2 |}, Ok tt))
  /\ (forall (w w' : world) (ipynb txt : str),
         ipynb <> txt ->
         convert_notebook ipynb txt w = (w', Ok tt) ->
         convert_notebook ipynb txt w' = (w', Ok tt)).
Proof.
  assert (Hrun : forall (w1 w2 w1' : world) (ipynb txt1 txt2 : str),
      fs w1 !! ipynb = fs w2 !! ipynb ->
      convert_notebook ipynb txt1 w1 = (w1', Ok tt) ->
      isdir w2 txt2 = false ->
      exists text,
        w1' = {| fs := <[txt1 := File text]> (fs w1); stdout := stdout w1 |}
        /\ convert_notebook ipynb txt2 w2
           = ({| fs := <[txt2 := File text]> (fs w2); stdout := stdout w2 |}, Ok tt)).
  { intros w1 w2 w1' ipynb txt1 txt2 Hsame Hrun1 Hdir2.
    rewrite convert_notebook_unfold in Hrun1 |- *.
    unfold read_text in *. rewrite <- Hsame.
    destruct (fs w1 !! ipynb) as [[text|names]|]; try discriminate.
    destruct (json_load text) as [nb|e]; [|discriminate].
    destruct (dict_get nb _ _) as [cells|e]; [|discriminate].
    destruct (isdir w1 txt1); [discriminate|]. rewrite Hdir2.
    destruct (write_notebook _ _ _ _) as [out r].
    injection Hrun1 as <- ->. exists (concat out). now split. }
  split.
  - intros w1 w2 w1' ipynb txt1 txt2 Hsame Hrun1 Hdir2.
    destruct (Hrun w1 w2 w1' ipynb txt1 txt2 Hsame Hrun1 Hdir2) as (text & -> & Hrun2).
    exists text. split; [|exact Hrun2]. cbn [fs]. apply lookup_insert_eq.
  - intros w w' ipynb txt Hne Hrun1.
    assert (Hdir : isdir w txt = false).
    { destruct (isdir w txt) eqn:E; [|reflexivity].
      rewrite convert_notebook_unfold in Hrun1.
      destruct (read_text w ipynb); [|discriminate].
      destruct (json_load _); [|discriminate].
      destruct (dict_get _ _ _); [|discriminate].
      rewrite E in Hrun1. discriminate. }
    destruct (Hrun w w w' ipynb txt txt eq_refl Hrun1 Hdir) as (text & Hw' & _).
    set (w1 := {| fs := <[txt := File text]> (fs w); stdout := stdout w |}) in *.
    destruct (Hrun w w1 w' ipynb txt txt) as (text2 & Hw2 & Hrun2).
    + unfold w1. cbn [fs]. now rewrite lookup_insert_ne.
    + exact Hrun1.
    + unfold isdir, w1. cbn [fs]. now rewrite lookup_insert_eq.
    + assert (text2 = text) as ->.
      { rewrite Hw' in Hw2. unfold w1 in Hw2. injection Hw2 as Hfs.
        apply (f_equal (fun m => m !! txt)) in Hfs.
        rewrite !lookup_insert_eq in Hfs. now injection Hfs. }
      rewrite Hw', Hrun2. f_equal. unfold w1. cbn [fs stdout].
      now rewrite insert_insert_eq.
Qed.

(** *** The batch *)

Lemma print_ok (line : str) (w : world) :
  printable line = true -> print line w = (printed line w, Ok tt).
Proof. intros Hp. unfold print. now rewrite Hp. Qed.

Lemma mkdir_chain_stdout (chain : list str) :
  forall (parent : str) (w : world),
    stdout (mkdir_chain parent chain w).1 = stdout w.
Proof.
  induction chain as [|d rest IH]; intros parent w; [reflexivity|].
  cbn [mkdir_chain]. destruct (fs w !! d) as [[?|?]|]; [reflexivity|apply IH|].
  now rewrite IH.
Qed.

(** A walk that succeeds ends in a directory. *)
Lemma mkdir_chain_last (l : list str) (d : str) :
  forall (parent : str) (w w1 : world),
    mkdir_chain parent (l ++ [d]) w = (w1, Ok tt) -> isdir w1 d = true.
Proof.
  induction l as [|x l IH]; intros parent w w1.
  - cbn [app mkdir_chain]. unfold isdir.
    destruct (fs w !! d) as [[?|?]|] eqn:E.
    + discriminate.
    + intros [= <-]. now rewrite E.
    + intros [= <-]. cbn [fs]. now rewrite lookup_insert_eq.
  - cbn [app mkdir_chain]. destruct (fs w !! x) as [[?|?]|]; [discriminate| |]; apply IH.
Qed.

Lemma makedirs_dir (d : str) (w : world) : isdir w d = true -> makedirs d w = (w, Ok tt).
Proof.
  unfold isdir, makedirs. destruct (fs w !! d) as [[?|?]|]; (reflexivity || discriminate).
Qed.

Lemma makedirs_result (d : str) (w w1 : world) :
  makedirs d w = (w1, Ok tt) -> isdir w1 d = true /\ stdout w1 = stdout w.
Proof.
  unfold makedirs. destruct (fs w !! d) as [[?|?]|] eqn:E.
  - discriminate.
  - intros [= <-]. unfold isdir. now rewrite E.
  - intros Hchain. split; [exact (mkdir_chain_last _ _ _ _ _ Hchain)|].
    pose proof (mkdir_chain_stdout (ancestors d ++ [d]) (anchor d) w) as Hout.
    now rewrite Hchain in Hout.
Qed.

Lemma isdir_not_isfile (w : world) (d : str) : isdir w d = true -> isfile w d = false.
Proof. unfold isdir, isfile. destruct (fs w !! d) as [[?|?]|]; (reflexivity || discriminate). Qed.

(** One turn of the loop over the discovered paths. *)
Lemma files_loop_cons (outdir : str) (ov : bool) (ipynb : str) (rest : list str)
    (w : world) :
  files_loop outdir ov (ipynb :: rest) w
  = match makedirs outdir w with
    | (w1, Raise e) => (w1, Raise e)
    | (w1, Ok _) =>
        if path_exists w1 (target_path outdir ipynb) && negb ov
        then
          if printable (skip_line outdir ipynb)
          then files_loop outdir ov rest (printed (skip_line outdir ipynb) w1)
          else (w1, Raise UnicodeEncodeError)
        else
          match convert_notebook ipynb (target_path outdir ipynb) w1 with
          | (w2, Ok _) =>
              if printable (converted_line outdir ipynb)
              then files_loop outdir ov rest (printed (converted_line outdir ipynb) w2)
              else if printable (failed_line ipynb UnicodeEncodeError)
              then
                files_loop outdir ov rest
                  (printed (failed_line ipynb UnicodeEncodeError) w2)
              else (w2, Raise UnicodeEncodeError)
          | (w2, Raise e) =>
              if printable (failed_line ipynb e)
              then files_loop outdir ov rest (printed (failed_line ipynb e) w2)
              else (w2, Raise UnicodeEncodeError)
          end
    end.
Proof.
  cbn [files_loop]. rewrite prog_bind_unfold.
  destruct (makedirs outdir w) as [w1 [[]|e]]; [|reflexivity].
  rewrite prog_bind_unfold. unfold gets at 1. fold (target_path outdir ipynb).
  rewrite prog_bind_unfold.
  destruct (path_exists w1 (target_path outdir ipynb) && negb ov).
  - fold (skip_line outdir ipynb). unfold print at 1.
    destruct (printable (skip_line outdir ipynb)); reflexivity.
  - fold (converted_line outdir ipynb). unfold try_except. rewrite prog_bind_unfold.
    destruct (convert_notebook ipynb (target_path outdir ipynb) w1) as [w2 [[]|e]].
    + unfold print at 1. destruct (printable (converted_line outdir ipynb)).
      * reflexivity.
      * fold (failed_line ipynb UnicodeEncodeError). unfold print at 1.
        destruct (printable (failed_line ipynb UnicodeEncodeError)); reflexivity.
    + fold (failed_line ipynb e). unfold print at 1.
      destruct (printable (failed_line ipynb e)); reflexivity.
Qed.

(** Once the output directory is there and standard output takes the
    lines of the report, the loop runs to its end: every path gets its
    report, in order, and no exception leaves it. *)
Lemma files_loop_completes (outdir : str) (ov : bool) (paths : list str) :
  forall w : world,
    isdir w outdir = true ->
    Forall (reports_printable outdir) paths ->
    exists w' lines,
      files_loop outdir ov paths w = (w', Ok tt)
      /\ stdout w' = stdout w ++ lines
      /\ Forall2 (file_report outdir) paths lines.
Proof.
  induction paths as [|ipynb rest IH]; intros w Hout Hprint.
  - exists w, []. rewrite app_nil_r. repeat split. constructor.
  - apply Forall_cons in Hprint as [(Hskip & Hconv & Hfail) Hprint].
    assert (Hnext : forall (line : str) (w2 : world),
              stdout w2 = stdout w -> isdir w2 outdir = true ->
              file_report outdir ipynb line ->
              exists w' lines,
                files_loop outdir ov rest (printed line w2) = (w', Ok tt)
                /\ stdout w' = stdout w ++ lines
                /\ Forall2 (file_report outdir) (ipynb :: rest) lines).
    { intros line w2 Hstd Hdir Hline.
      destruct (IH (printed line w2) Hdir Hprint) as (w' & lines & Hrun & Hlines & Hrep).
      exists w', (line :: lines). split; [exact Hrun|]. split.
      - rewrite Hlines. cbn [printed stdout]. now rewrite Hstd, <- app_assoc.
      - now constructor. }
    rewrite files_loop_cons, (makedirs_dir _ _ Hout).
    destruct (path_exists w (target_path outdir ipynb) && negb ov).
    + rewrite Hskip. apply Hnext; [reflexivity|exact Hout|now left].
    + pose proof (convert_notebook_keeps_dir ipynb (target_path outdir ipynb) outdir w Hout)
        as Hdir2.
      pose proof (proj1 (convert_notebook_frame ipynb (target_path outdir ipynb) w))
        as Hstd2.
      destruct (convert_notebook ipynb (target_path outdir ipynb) w) as [w2 [[]|e]];
        cbn [fst] in Hdir2, Hstd2.
      * rewrite Hconv. apply Hnext; [exact Hstd2|exact Hdir2|right; now left].
      * rewrite Hfail. apply Hnext; [exact Hstd2|exact Hdir2|right; right; now exists e].
Qed.

(** The first turn creates the output directory; from then on it is
    there. *)
Lemma files_loop_after_makedirs (outdir : str) (ov : bool) (ipynb : str)
    (rest : list str) (w w1 : world) :
  makedirs outdir w = (w1, Ok tt) ->
  files_loop outdir ov (ipynb :: rest) w = files_loop outdir ov (ipynb :: rest) w1.
Proof.
  intros Hmk. rewrite !files_loop_cons, Hmk.
  now rewrite (makedirs_dir outdir w1 (proj1 (makedirs_result _ _ _ Hmk))).
Qed.

(** The loop from the start: the first turn creates the output directory. *)
Lemma batch_completes (outdir : str) (ov : bool) (paths : list str) (w : world) :
  (makedirs outdir w).2 = Ok tt ->
  Forall (reports_printable outdir) paths ->
  exists w' lines,
    files_loop outdir ov paths w = (w', Ok tt)
    /\ stdout w' = stdout w ++ lines
    /\ Forall2 (file_report outdir) paths lines.
Proof.
  intros Hmk Hprint. destruct paths as [|ipynb rest].
  - exists w, []. rewrite app_nil_r. repeat split. constructor.
  - destruct (makedirs outdir w) as [w1 [[]|e]] eqn:Emk; [|discriminate].
    destruct (makedirs_result _ _ _ Emk) as [Hdir Hstd].
    rewrite (files_loop_after_makedirs _ _ _ _ _ _ Emk), <- Hstd.
    now apply files_loop_completes.
Qed.

(** C7, for the failures of [convert_notebook]: an exception raised by
    the conversion of one file is caught, reported as
    [Failed to convert <path>: <message>] when standard output can encode
    that line, and the loop goes on with the remaining files; when the
    output directory can be created and standard output can encode the
    lines of the report, every discovered file gets its report and
    nothing aborts the batch. *)
Theorem conversion_failure_is_contained :
  (forall (outdir : str) (ov : bool) (ipynb : str) (rest : list str)
          (w w1 w2 : world) (e : exn),
      makedirs outdir w = (w1, Ok tt) ->
      path_exists w1 (target_path outdir ipynb) && negb ov = false ->
      convert_notebook ipynb (target_path outdir ipynb) w1 = (w2, Raise e) ->
      printable (lit "Failed to convert " ++ ipynb ++ lit ": " ++ exn_message e) = true ->
      files_loop outdir ov (ipynb :: rest) w
      = files_loop outdir ov rest
          (printed (lit "Failed to convert " ++ ipynb ++ lit ": " ++ exn_message e) w2))
  /\ (forall (outdir : str) (ov : bool) (paths : list str) (w : world),
         (makedirs outdir w).2 = Ok tt ->
         Forall (reports_printable outdir) paths ->
         exists w' lines,
           files_loop outdir ov paths w = (w', Ok tt)
           /\ stdout w' = stdout w ++ lines
           /\ Forall2 (file_report outdir) paths lines).
Proof.
  split.
  - intros outdir ov ipynb rest w w1 w2 e Hmk Hskip Hconv Hprint.
    rewrite files_loop_cons, Hmk, Hskip, Hconv. unfold failed_line. now rewrite Hprint.
  - intros outdir ov paths w. apply batch_completes.
Qed.

Lemma main_unfold (a : args) (w : world) :
  main a w
  = match find_ipynb_files w (path a) with
    | [] =>
        if printable (not_found_line (path a))
        then (printed (not_found_line (path a)) w, Ok 2%Z)
        else (w, Raise UnicodeEncodeError)
    | p :: ps =>
        match files_loop (resolve_outdir a) (overwrite a) (p :: ps) w with
        | (w', Ok _) => (w', Ok 0%Z)
        | (w', Raise e) => (w', Raise e)
        end
    end.
Proof.
  unfold main. rewrite prog_bind_unfold. unfold gets at 1.
  destruct (find_ipynb_files w (path a)) as [|p ps].
  - rewrite prog_bind_unfold. fold (not_found_line (path a)). unfold print.
    destruct (printable (not_found_line (path a))); reflexivity.
  - rewrite prog_bind_unfold.
    destruct (files_loop _ _ _ w) as [w' [[]|e]]; reflexivity.
Qed.

(** C8, for the whole command: the exit status is 0 when the command
    line parses, at least one candidate is found, the output directory
    can be created and standard output can encode the lines of the
    report, whatever happens to the individual files; it is 2 exactly
    when the argument parser exits with 2 or no candidate is found and
    the notice is printed, and in that last case the file system is left
    as it was. *)
Theorem exit_status :
  (forall (argv : list str) (a : args) (w : world),
      parse_args argv = Parsed a ->
      find_ipynb_files w (path a) <> [] ->
      (makedirs (resolve_outdir a) w).2 = Ok tt ->
      Forall (reports_printable (resolve_outdir a)) (find_ipynb_files w (path a)) ->
      (run_script argv w).2 = 0%Z)
  /\ (forall (argv : list str) (a : args) (w : world),
         parse_args argv = Parsed a ->
         find_ipynb_files w (path a) = [] ->
         printable (lit "No .ipynb files found at: " ++ path a) = true ->
         run_script argv w
         = (printed (lit "No .ipynb files found at: " ++ path a) w, 2%Z)
         /\ fs (run_script argv w).1 = fs w)
  /\ (forall (argv : list str) (w : world),
         (run_script argv w).2 = 2%Z
         <-> (exists lines, parse_args argv = ParserExit lines 2%Z)
             \/ (exists a,
                    parse_args argv = Parsed a
                    /\ find_ipynb_files w (path a) = []
                    /\ printable (lit "No .ipynb files found at: " ++ path a) = true)).
Proof.
  split; [|split].
  - intros argv a w Hparse Hfound Hmk Hprint. unfold run_script.
    rewrite Hparse, main_unfold.
    destruct (find_ipynb_files w (path a)) as [|p ps]; [contradiction|].
    destruct (batch_completes (resolve_outdir a) (overwrite a) (p :: ps) w Hmk Hprint)
      as (w' & lines & -> & _).
    reflexivity.
  - intros argv a w Hparse Hnone Hprint. unfold run_script.
    rewrite Hparse, main_unfold, Hnone. unfold not_found_line. rewrite Hprint.
    now split.
  - intros argv w. unfold run_script.
    destruct (parse_args argv) as [a|lines status] eqn:Hparse.
    + rewrite main_unfold.
      destruct (find_ipynb_files w (path a)) as [|p ps] eqn:Hfind.
      * unfold not_found_line.
        destruct (printable (lit "No .ipynb files found at: " ++ path a)) eqn:Hprint.
        -- split; [intros _|reflexivity]. right. exists a. now repeat split.
        -- split; [discriminate|].
           intros [(l & [=])|(a' & [= <-] & _ & Hp)]. rewrite Hprint in Hp. discriminate.
      * split.
        -- destruct (files_loop _ _ _ w) as [w' [[]|e]]; discriminate.
        -- intros [(l & [=])|(a' & [= <-] & Hnone & _)]. rewrite Hfind in Hnone.
           discriminate.
    + cbn [snd]. split.
      * intros ->. left. now exists lines.
      * intros [(l & [= _ ->])|(a & [=] & _)]. reflexivity.
Qed.
End BatchDriver.

(** *** The document renderer and the batch on the sample inputs *)

Lemma convert_notebook_text_witness :
  convert_notebook (H := Sample.runtime) (lit "nbs/b.ipynb") (lit "out/b.txt")
    Sample.batch_world
  = ({| fs := <[lit "out/b.txt" :=
                  File (rendered_text (H := Sample.runtime)
                          (basename (Runtime := Sample.runtime) (lit "nbs/b.ipynb"))
                          (JObj []) Sample.nb_blocks)]> (fs Sample.batch_world);
        stdout := stdout Sample.batch_world |}, Ok tt).
Proof.
  apply (proj1 (convert_notebook_text (H := Sample.runtime) Sample.batch_world
                  (lit "nbs/b.ipynb") (lit "out/b.txt") Sample.nb_text
                  Sample.nb_members (JObj [])
                  [Sample.markdown_cell; Sample.code_cell] Sample.nb_blocks
                  ltac:(vm_compute; reflexivity)
                  ltac:(vm_compute; reflexivity)
                  (kernelspec_no_metadata Sample.nb_members eq_refl)
                  (cells_array Sample.nb_members _ eq_refl)
                  ltac:(vm_compute; reflexivity)
                  ltac:(vm_compute; reflexivity)
                  ltac:(vm_compute; reflexivity))).
Defined.

Lemma cell_headers_follow_cells_witness :
  exists out,
    convert_notebook (H := Sample.runtime) (lit "nbs/b.ipynb") (lit "out/b.txt")
      Sample.batch_world
    = ({| fs := <[lit "out/b.txt" := File out]> (fs Sample.batch_world);
          stdout := stdout Sample.batch_world |}, Ok tt)
    /\ header_lines out = [lit "Cell 1"; lit "Cell 2"].
Proof.
  destruct (cell_headers_follow_cells (H := Sample.runtime) Sample.batch_world
              (lit "nbs/b.ipynb") (lit "out/b.txt") Sample.nb_text
              Sample.nb_members (JObj [])
              [Sample.markdown_cell; Sample.code_cell] Sample.nb_blocks
              ltac:(vm_compute; reflexivity)
              ltac:(vm_compute; reflexivity)
              (kernelspec_no_metadata Sample.nb_members eq_refl)
              (cells_array Sample.nb_members _ eq_refl)
              ltac:(vm_compute; reflexivity)
              ltac:(vm_compute; reflexivity)
              ltac:(vm_compute; reflexivity)
              ltac:(vm_compute; reflexivity)
              ltac:(vm_compute; reflexivity)
              ltac:(repeat constructor))
    as (out & Hrun & _ & _ & _ & Hheaders & _).
  exists out. split; [exact Hrun|exact Hheaders].
Defined.

(** A notebook of one cell and a notebook of two cells that give the same
    output text: it has the two lines [Cell 1] and [Cell 2], one more
    than the first notebook has cells, so that the cells cannot be
    counted from the text. *)
Lemma lookalike_notebooks :
  has_cells Lookalike.one_members [Lookalike.one_cell]
  /\ has_cells Lookalike.two_members [Lookalike.cell_a; Lookalike.cell_b]
  /\ convert_notebook (H := Lookalike.runtime) (lit "one/nb.ipynb") (lit "out/one.txt")
       Lookalike.lookalike_world
     = ({| fs := <[lit "out/one.txt" := File Lookalike.common_text]>
                   (fs Lookalike.lookalike_world);
           stdout := [] |}, Ok tt)
  /\ convert_notebook (H := Lookalike.runtime) (lit "two/nb.ipynb") (lit "out/two.txt")
       Lookalike.lookalike_world
     = ({| fs := <[lit "out/two.txt" := File Lookalike.common_text]>
                   (fs Lookalike.lookalike_world);
           stdout := [] |}, Ok tt)
  /\ header_lines Lookalike.common_text = [lit "Cell 1"; lit "Cell 2"]
  /\ length (header_lines Lookalike.common_text) <> length [Lookalike.one_cell].
Proof.
  split; [exact (cells_array Lookalike.one_members _ eq_refl)|].
  split; [exact (cells_array Lookalike.two_members _ eq_refl)|].
  split; [vm_compute; reflexivity|].
  split; [vm_compute; reflexivity|].
  split; [vm_compute; reflexivity|].
  vm_compute. discriminate.
Qed.

Lemma conversion_deterministic_witness :
  exists text,
    fs (convert_notebook (H := Sample.runtime) (lit "nbs/b.ipynb") (lit "out/b.txt")
          Sample.batch_world).1 !! lit "out/b.txt" = Some (File text)
    /\ convert_notebook (H := Sample.runtime) (lit "nbs/b.ipynb") (lit "old.txt")
         Sample.other_world
       = ({| fs := <[lit "old.txt" := File text]> (fs Sample.other_world);
             stdout := stdout Sample.other_world |}, Ok tt).
Proof.
  apply (proj1 (conversion_deterministic (H := Sample.runtime))
           Sample.batch_world Sample.other_world).
  - vm_compute. reflexivity.
  - vm_compute. reflexivity.
  - vm_compute. reflexivity.
Defined.

Lemma conversion_failure_is_contained_witness :
  files_loop (H := Sample.runtime) (lit "out") false
    [lit "nbs/a.ipynb"; lit "nbs/b.ipynb"] Sample.batch_world
  = files_loop (H := Sample.runtime) (lit "out") false [lit "nbs/b.ipynb"]
      (printed (lit "Failed to convert nbs/a.ipynb: JSONDecodeError")
         (makedirs (H := Sample.runtime) (lit "out") Sample.batch_world).1).
Proof.
  apply (proj1 (conversion_failure_is_contained (H := Sample.runtime))
           (lit "out") false (lit "nbs/a.ipynb") [lit "nbs/b.ipynb"]
           Sample.batch_world
           (makedirs (H := Sample.runtime) (lit "out") Sample.batch_world).1
           (makedirs (H := Sample.runtime) (lit "out") Sample.batch_world).1
           JSONDecodeError).
  - vm_compute. reflexivity.
  - vm_compute. reflexivity.
  - vm_compute. reflexivity.
  - vm_compute. reflexivity.
Defined.

(** The batch whose output directory names a regular file: three
    notebooks are found, creating the directory raises for the first of
    them, and the exception leaves [main]: nothing is converted and
    nothing is reported. *)
Lemma batch_aborted_by_output_directory :
  find_ipynb_files (H := Sample.runtime) Sample.batch_world (path Sample.clash_args)
  = [lit "nbs/a.ipynb"; lit "nbs/b.ipynb"; lit "nbs/c.IPYNB"]
  /\ main (H := Sample.runtime) Sample.clash_args Sample.batch_world
     = (Sample.batch_world, Raise FileExistsError).
Proof. split; vm_compute; reflexivity. Qed.

Lemma exit_status_witness :
  (run_script (H := Sample.runtime) [lit "nbs"; lit "-o"; lit "out"] Sample.batch_world).2
  = 0%Z.
Proof.
  apply (proj1 (exit_status (H := Sample.runtime)) _ Sample.batch_args).
  - vm_compute. reflexivity.
  - vm_compute. discriminate.
  - vm_compute. reflexivity.
  - vm_compute. repeat (constructor; [repeat split; try intros []; reflexivity|]).
    constructor.
Defined.

(** One notebook is found, the output directory names a regular file:
    [main] raises and returns no exit status 0; the process ends with
    status 1. *)
Lemma exit_status_not_zero :
  find_ipynb_files (H := Sample.runtime) Sample.batch_world (path Sample.single_clash_args)
  = [lit "nbs/b.ipynb"]
  /\ (main (H := Sample.runtime) Sample.single_clash_args Sample.batch_world).2
     = Raise FileExistsError
  /\ (main (H := Sample.runtime) Sample.single_clash_args Sample.batch_world).2
     <> Ok 0%Z
  /\ parse_args (Runtime := Sample.runtime)
       [lit "nbs/b.ipynb"; lit "--outdir"; lit "nbs/notes.txt"; lit "--overwrite"]
     = Parsed Sample.single_clash_args
  /\ (run_script (H := Sample.runtime)
        [lit "nbs/b.ipynb"; lit "--outdir"; lit "nbs/notes.txt"; lit "--overwrite"]
        Sample.batch_world).2 = 1%Z.
Proof.
  split; [vm_compute; reflexivity|].
  split; [vm_compute; reflexivity|].
  split; [vm_compute; discriminate|].
  split; vm_compute; reflexivity.
Qed.

(** The batch in a directory whose name standard output cannot encode:
    the first notebook fails to convert, printing its report raises in
    the handler, and the exception leaves [main]: the second notebook is
    not converted and the process ends with status 1. *)
Example batch_aborted_by_report :
  find_ipynb_files (H := Sample.runtime) Cases.odd_dir_world Cases.odd_dir
  = [Cases.odd_dir ++ lit "/a.ipynb"; Cases.odd_dir ++ lit "/b.ipynb"]
  /\ (main (H := Sample.runtime)
        {| path := Cases.odd_dir; outdir := Some (lit "out"); overwrite := false |}
        Cases.odd_dir_world).2
     = Raise UnicodeEncodeError
  /\ fs (main (H := Sample.runtime)
           {| path := Cases.odd_dir; outdir := Some (lit "out"); overwrite := false |}
           Cases.odd_dir_world).1 !! lit "out/b.txt"
     = None
  /\ (run_script (H := Sample.runtime) [Cases.odd_dir; lit "-o"; lit "out"]
        Cases.odd_dir_world).2
     = 1%Z.
Proof. repeat split; vm_compute; reflexivity. Qed.

(** No notebook at the given path: the exit status is 2 and the file
    system is left as it was. *)
Example sample_nothing_found :
  main (H := Sample.runtime) Sample.empty_args Sample.batch_world
  = (printed (lit "No .ipynb files found at: nbs/notes.txt") Sample.batch_world,
     Ok 2%Z).
Proof. vm_compute. reflexivity. Qed.

(** The whole sample batch: one failure to parse, one conversion, one
    document that is not a notebook; the exit status is 0. *)
Example sample_batch :
  (main (H := Sample.runtime) Sample.batch_args Sample.batch_world).2 = Ok 0%Z
  /\ stdout (main (H := Sample.runtime) Sample.batch_args Sample.batch_world).1
     = [lit "Failed to convert nbs/a.ipynb: JSONDecodeError";
        lit "Converted: nbs/b.ipynb -> out/b.txt";
        lit "Failed to convert nbs/c.IPYNB: AttributeError"].
Proof. split; vm_compute; reflexivity. Qed.

(** * Further properties *)

(** ** The cell renderer: fallbacks and failures *)

Section CellRendererEdges.
Context `{Runtime}.

Lemma eq_str_false (v : json) (s : str) : v <> JStr s -> eq_str v s = false.
Proof.
  intros Hv. destruct v as [| | | |t| |]; try reflexivity.
  simpl. apply bool_decide_eq_false_2. intros ->. now apply Hv.
Qed.

(** X3: a cell whose [cell_type] is neither [markdown] nor [code], whatever
    value it is, renders as its type line followed by the right-trimmed
    source, without a label; its [outputs] are not looked at. *)
Theorem other_cell_block :
  forall (m : list (str * json)) (v : json) (src : option (list str)),
    assoc (lit "cell_type") m = Some v ->
    v <> JStr (lit "markdown") -> v <> JStr (lit "code") ->
    opt_frags (assoc (lit "source") m) src ->
    extract_text_from_cell (JObj m)
    = Ok (lit "Cell type: " ++ py_format v ++ NL ++ rstrip (concat (default [] src))).
Proof.
  intros m v src Hty Hmd Hcode Hsrc. unfold extract_text_from_cell. cbn [dict_get].
  rewrite Hty, !bind_Ok. cbn beta. change (default (JStr (lit "unknown")) (Some v)) with v.
  rewrite (source_step _ _ Hsrc), bind_Ok.
  rewrite (eq_str_false v _ Hmd), (eq_str_false v _ Hcode), bind_Ok.
  unfold nl_join. cbn [join app]. now rewrite <- app_assoc.
Qed.

(** X4: the [traceback] of an output whose type is not [error] is never read:
    the output renders as it does without the key, even when the value is
    not a list of lines. *)
Theorem traceback_only_for_errors :
  forall (m : list (str * json)) (acc : list str) (oi : nat),
    default (JStr (lit "output")) (assoc (lit "output_type") m) <> JStr (lit "error") ->
    output_step acc oi (JObj m)
    = output_step acc oi (JObj (without_key (lit "traceback") m)).
Proof.
  intros m acc oi Hty. unfold output_step. cbn [dict_get].
  rewrite !bind_Ok. cbn beta.
  rewrite (assoc_without_key_ne (lit "traceback") (lit "output_type")),
    (assoc_without_key_ne (lit "traceback") (lit "text")),
    (assoc_without_key_ne (lit "traceback") (lit "data"))
    by (vm_compute; discriminate).
  rewrite (eq_str_false _ _ Hty). reflexivity.
Qed.

(** X5: a [text/plain] entry that is null makes the output, and with it the
    cell, fail with [TypeError], where a null [text] or a null [data] is
    passed over. *)
Theorem null_plain_entry_raises :
  forall (m d : list (str * json)) (o : Output) (acc : list str) (oi : nat),
    str_field (lit "output") (assoc (lit "output_type") m) (o_type o) ->
    opt_frags (assoc (lit "text") m) (o_text o) ->
    assoc (lit "data") m = Some (JObj d) ->
    assoc (lit "text/plain") d = Some JNull ->
    output_step acc oi (JObj m) = Raise TypeError.
Proof.
  intros m d o acc oi Hty Htx Hd Hp. unfold output_step. cbn [dict_get].
  rewrite !bind_Ok. cbn beta.
  rewrite (text_step _ _ _ Htx), !bind_Ok. cbn beta.
  rewrite Hd. change (default JNull (Some (JObj d))) with (JObj d).
  unfold py_or. destruct d as [|kv d]; [discriminate|].
  simpl truthy. cbn iota. rewrite Hp. reflexivity.
Qed.

End CellRendererEdges.

Lemma other_cell_block_witness :
  extract_text_from_cell (H := Sample.runtime) (JObj Cases.raw_members)
  = Ok (lit "Cell type: " ++ py_format (H := Sample.runtime) (JStr (lit "raw")) ++ NL
        ++ rstrip (concat (default [] (Some [lit "plain text "; NL])))).
Proof.
  apply (other_cell_block (H := Sample.runtime) Cases.raw_members (JStr (lit "raw"))
           (Some [lit "plain text "; NL])).
  - reflexivity.
  - vm_compute. discriminate.
  - vm_compute. discriminate.
  - exact (opt_present _ _ (frags_list [lit "plain text "; NL])).
Defined.

Lemma traceback_only_for_errors_witness :
  output_step (H := Sample.runtime) [] 1 (JObj Cases.stray_traceback_members)
  = output_step (H := Sample.runtime) [] 1
      (JObj (without_key (lit "traceback") Cases.stray_traceback_members)).
Proof.
  apply (traceback_only_for_errors (H := Sample.runtime)).
  vm_compute. discriminate.
Defined.

Lemma null_plain_entry_raises_witness :
  output_step (H := Sample.runtime) [] 1 (JObj Cases.null_plain_members)
  = Raise TypeError.
Proof.
  apply (null_plain_entry_raises (H := Sample.runtime) Cases.null_plain_members
           [(lit "text/plain", JNull)] Cases.null_plain_typed [] 1).
  - exact (field_str _ _).
  - exact opt_absent.
  - reflexivity.
  - reflexivity.
Defined.

(** ** Discovery *)

Lemma str_leb_total (a b : str) : str_leb a b = true \/ str_leb b a = true.
Proof.
  revert b. induction a as [|x a IH]; intros [|y b]; simpl; auto.
  destruct (N.lt_trichotomy x y) as [Hlt|[->|Hgt]].
  - left. apply orb_true_iff. left. now apply N.ltb_lt.
  - rewrite N.ltb_irrefl, N.eqb_refl. simpl. apply IH.
  - right. apply orb_true_iff. left. now apply N.ltb_lt.
Qed.

Lemma str_leb_trans (a b c : str) :
  str_leb a b = true -> str_leb b c = true -> str_leb a c = true.
Proof.
  revert b c. induction a as [|x a IH]; intros [|y b] [|z c]; simpl; auto;
    try discriminate.
  intros Hab Hbc.
  apply orb_true_iff in Hab as [Hab|Hab]; apply orb_true_iff in Hbc as [Hbc|Hbc];
    apply orb_true_iff.
  - left. apply N.ltb_lt in Hab, Hbc. apply N.ltb_lt. lia.
  - apply andb_true_iff in Hbc as [Hbc _]. apply N.eqb_eq in Hbc. subst z. now left.
  - apply andb_true_iff in Hab as [Hab _]. apply N.eqb_eq in Hab. subst y. now left.
  - apply andb_true_iff in Hab as [Hxy Hab]. apply andb_true_iff in Hbc as [Hyz Hbc].
    apply N.eqb_eq in Hxy, Hyz. subst y z. right. rewrite N.eqb_refl. simpl.
    exact (IH b c Hab Hbc).
Qed.

Lemma str_leb_antisym (a b : str) :
  str_leb a b = true -> str_leb b a = true -> a = b.
Proof.
  revert b. induction a as [|x a IH]; intros [|y b]; simpl; auto; try discriminate.
  intros Hab Hba.
  apply orb_true_iff in Hab as [Hab|Hab]; apply orb_true_iff in Hba as [Hba|Hba].
  - apply N.ltb_lt in Hab, Hba. lia.
  - apply andb_true_iff in Hba as [Hba _]. apply N.eqb_eq in Hba.
    apply N.ltb_lt in Hab. lia.
  - apply andb_true_iff in Hab as [Hab _]. apply N.eqb_eq in Hab.
    apply N.ltb_lt in Hba. lia.
  - apply andb_true_iff in Hab as [Hxy Hab]. apply andb_true_iff in Hba as [_ Hba].
    apply N.eqb_eq in Hxy. subst y. f_equal. exact (IH b Hab Hba).
Qed.

Lemma str_le_total : Total str_le.
Proof.
  intros a b. unfold str_le.
  destruct (str_leb_total a b) as [E|E]; rewrite E; [now left|now right].
Qed.

Lemma str_le_trans : Transitive str_le.
Proof.
  intros a b c Hab Hbc. unfold str_le in *.
  apply Is_true_true in Hab, Hbc. apply Is_true_true.
  exact (str_leb_trans a b c Hab Hbc).
Qed.

Lemma str_le_antisym : AntiSymm (=) str_le.
Proof.
  intros a b Hab Hba. unfold str_le in *.
  apply Is_true_true in Hab, Hba. exact (str_leb_antisym a b Hab Hba).
Qed.

Lemma StronglySorted_filter {A} (R : relation A) (P : A -> Prop)
    `{forall x, Decision (P x)} (l : list A) :
  StronglySorted R l -> StronglySorted R (filter P l).
Proof.
  induction 1 as [|x l Hl IH Hx]; [constructor|].
  rewrite filter_cons. destruct (decide (P x)); [|exact IH].
  constructor; [exact IH|].
  apply Forall_forall. intros y Hy. apply list_elem_of_filter in Hy as [_ Hy].
  rewrite Forall_forall in Hx. exact (Hx y Hy).
Qed.

Section Discovery.
Context `{Runtime}.

(** X1: what [find_ipynb_files] yields: the path itself when it is a regular
    file whose lower-cased name ends in [.ipynb]; for a directory, the
    entries whose lower-cased name ends in [.ipynb], joined to the
    directory; nothing else, and nothing for a path that is neither. *)
Theorem find_ipynb_files_spec :
  forall (w : world) (p q : str),
    q ∈ find_ipynb_files w p
    <-> (isfile w p = true /\ is_ipynb p = true /\ q = p)
        \/ (isdir w p = true
            /\ exists name, name ∈ listdir w p /\ is_ipynb name = true
                            /\ q = path_join p name).
Proof.
  intros w p q. unfold find_ipynb_files.
  assert (Hexcl : isfile w p = true -> isdir w p = false).
  { unfold isfile, isdir. destruct (fs w !! p) as [[?|?]|]; (reflexivity || discriminate). }
  destruct (isfile w p) eqn:Hf.
  - rewrite (Hexcl eq_refl). destruct (is_ipynb p) eqn:Hi.
    + rewrite list_elem_of_singleton. split.
      * intros ->. left. now repeat split.
      * intros [(_ & _ & ->)|(Hd & _)]; [reflexivity|discriminate].
    + split; [intros Hq; inversion Hq|].
      intros [(_ & Hi' & _)|(Hd & _)]; discriminate.
  - destruct (isdir w p) eqn:Hd.
    + rewrite list_elem_of_In, in_map_iff. split.
      * intros (name & <- & Hname). right. split; [reflexivity|].
        apply list_elem_of_In, list_elem_of_filter in Hname as [Hi Hname].
        exists name. split; [|now split].
        unfold sorted in Hname. now rewrite merge_sort_Permutation in Hname.
      * intros [(Hf' & _)|(_ & name & Hname & Hi & ->)]; [discriminate|].
        exists name. split; [reflexivity|].
        apply list_elem_of_In, list_elem_of_filter. split; [exact Hi|].
        unfold sorted. now rewrite merge_sort_Permutation.
    + split; [intros Hq; inversion Hq|].
      intros [(Hf' & _)|(Hd' & _)]; discriminate.
Qed.

(** X2: the notebooks of a directory come in the order of their names, code
    point by code point, each name as often as the listing has it. *)
Theorem find_ipynb_files_sorted :
  forall (w : world) (p : str),
    isdir w p = true ->
    exists names,
      find_ipynb_files w p = path_join p <$> names
      /\ StronglySorted str_le names
      /\ names ≡ₚ filter (fun name => is_ipynb name = true) (listdir w p)
      /\ (forall names',
             StronglySorted str_le names' -> names' ≡ₚ names -> names' = names).
Proof.
  intros w p Hd. unfold find_ipynb_files.
  assert (Hf : isfile w p = false).
  { unfold isfile, isdir in *. destruct (fs w !! p) as [[?|?]|]; (reflexivity || discriminate). }
  rewrite Hf, Hd.
  exists (filter (fun name => is_ipynb name = true) (sorted (listdir w p))).
  assert (Hsorted : StronglySorted str_le
            (filter (fun name => is_ipynb name = true) (sorted (listdir w p)))).
  { apply StronglySorted_filter. unfold sorted.
    pose proof str_le_total as Htotal. pose proof str_le_trans as Htrans.
    apply StronglySorted_merge_sort; assumption. }
  split; [reflexivity|]. split; [exact Hsorted|]. split.
  - unfold sorted. now rewrite merge_sort_Permutation.
  - intros names' Hs Hp. pose proof str_le_antisym as Hanti.
    now apply (StronglySorted_unique str_le).
Qed.

End Discovery.

Lemma find_ipynb_files_spec_witness :
  lit "nbs/c.IPYNB" ∈ find_ipynb_files (H := Sample.runtime) Sample.batch_world (lit "nbs").
Proof.
  apply (proj2 (find_ipynb_files_spec (H := Sample.runtime) Sample.batch_world
                  (lit "nbs") (lit "nbs/c.IPYNB"))).
  right. split; [vm_compute; reflexivity|].
  exists (lit "c.IPYNB"). split; [|split; vm_compute; reflexivity].
  apply list_elem_of_In. vm_compute. tauto.
Defined.

Lemma find_ipynb_files_sorted_witness :
  exists names,
    find_ipynb_files (H := Sample.runtime) Sample.batch_world (lit "nbs")
    = path_join (Runtime := Sample.runtime) (lit "nbs") <$> names
    /\ StronglySorted str_le names
    /\ names ≡ₚ filter (fun name => is_ipynb (H := Sample.runtime) name = true)
                  (listdir Sample.batch_world (lit "nbs"))
    /\ (forall names',
           StronglySorted str_le names' -> names' ≡ₚ names -> names' = names).
Proof.
  apply (find_ipynb_files_sorted (H := Sample.runtime) Sample.batch_world (lit "nbs")).
  vm_compute. reflexivity.
Defined.

(** ** Conversions that fail *)

Section FailingConversions.
Context `{Runtime}.

(** X6: when the input cannot be loaded (no such file, text that is not
    JSON, a document whose top level is not an object) the exception is
    raised before the output is opened: nothing is created or truncated. *)
Theorem unloadable_input_leaves_no_output :
  forall (w : world) (ipynb txt : str),
    (fs w !! ipynb = None ->
     convert_notebook ipynb txt w = (w, Raise FileNotFoundError))
    /\ (forall text,
           fs w !! ipynb = Some (File text) -> json_loads text = None ->
           convert_notebook ipynb txt w = (w, Raise JSONDecodeError))
    /\ (forall text v,
           fs w !! ipynb = Some (File text) -> json_loads text = Some v ->
           ~ is_mapping v ->
           convert_notebook ipynb txt w = (w, Raise AttributeError)).
Proof.
  intros w ipynb txt. split; [|split].
  - intros Hnone. rewrite convert_notebook_unfold. unfold read_text. now rewrite Hnone.
  - intros text Hfile Hload. rewrite convert_notebook_unfold.
    unfold read_text, json_load. now rewrite Hfile, Hload.
  - intros text v Hfile Hload Hv. rewrite convert_notebook_unfold.
    unfold read_text, json_load. rewrite Hfile, Hload.
    destruct v; try reflexivity. destruct Hv. now eexists.
Qed.

Lemma cells_loop_app (good rest : list json) :
  forall (i : nat) (out : list str),
    cells_loop i (good ++ rest) out
    = match cells_loop i good out with
      | (out', Ok _) => cells_loop (i + length good) rest out'
      | (out', Raise e) => (out', Raise e)
      end.
Proof.
  induction good as [|cell good IH]; intros i out.
  - simpl. now rewrite Nat.add_0_r.
  - cbn [app cells_loop length].
    replace (i + S (length good)) with (S i + length good) by lia.
    unfold mbind, prog_bind, lift.
    destruct (out_write _ out) as [o1 [[]|e]]; [|reflexivity].
    destruct (extract_text_from_cell cell) as [b|e]; [|reflexivity].
    destruct (out_write b o1) as [o2 [[]|e]]; [|reflexivity].
    destruct (out_write CELL_SEPARATOR o2) as [o3 [[]|e]]; [|reflexivity].
    apply IH.
Qed.

(** X7: a cell that fails to render stops the conversion after its header
    line: the exception leaves [convert_notebook] and the output file
    keeps the document up to and including that [Cell N] line. *)
Theorem failing_cell_leaves_partial_output :
  forall (w : world) (ipynb txt text : str) (m : list (str * json)) (ks : json)
         (good rest : list json) (bad : json) (blocks : list str) (e : exn),
    fs w !! ipynb = Some (File text) ->
    json_loads text = Some (JObj m) ->
    has_kernelspec m ks ->
    assoc (lit "cells") m = Some (JArr (good ++ bad :: rest)) ->
    mapR extract_text_from_cell good = Ok blocks ->
    extract_text_from_cell bad = Raise e ->
    isdir w txt = false ->
    encodable (rendered_text (basename ipynb) ks blocks) = true ->
    convert_notebook ipynb txt w
    = ({| fs := <[txt := File (rendered_text (basename ipynb) ks blocks
                               ++ cell_header (S (length good)))]> (fs w);
          stdout := stdout w |}, Raise e).
Proof.
  intros w ipynb txt text m ks good rest bad blocks e
    Hfile Hload Hks Hcells Hgood Hbad Hdir Henc.
  rewrite convert_notebook_unfold. unfold read_text, json_load.
  rewrite Hfile, Hload. cbn [dict_get]. rewrite Hdir, Hcells.
  change (default (JArr []) (Some (JArr (good ++ bad :: rest))))
    with (JArr (good ++ bad :: rest)).
  assert (Hor : py_or (JArr (good ++ bad :: rest)) (JArr []) = JArr (good ++ bad :: rest)).
  { unfold py_or. simpl. now destruct good. }
  rewrite Hor.
  unfold rendered_text in Henc |- *. rewrite encodable_concat in Henc.
  unfold rendered_chunks, header_chunks in Henc |- *.
  cbn [app forallb] in Henc.
  apply andb_true_iff in Henc as [H1 Henc].
  apply andb_true_iff in Henc as [H2 Henc].
  apply andb_true_iff in Henc as [_ Henc].
  assert (Hb : forallb encodable blocks = true).
  { clear -Henc. revert Henc. generalize 1.
    induction blocks as [|b bs IH]; intros i Henc; [reflexivity|].
    cbn [cell_chunks app forallb] in Henc.
    apply andb_true_iff in Henc as [_ Henc].
    apply andb_true_iff in Henc as [Hb Henc].
    apply andb_true_iff in Henc as [_ Henc].
    simpl. rewrite Hb. exact (IH _ Henc). }
  rewrite write_notebook_unfold, (out_write_ok _ _ H1), (kernelspec_value m ks Hks).
  rewrite (out_write_ok _ _ H2), (out_write_ok _ _ encodable_separator).
  cbn [iter]. rewrite cells_loop_app, (cells_loop_ok good blocks Hgood Hb).
  cbn [cells_loop]. rewrite prog_bind_unfold.
  rewrite (out_write_ok _ _ (encodable_cell_header (1 + length good))).
  rewrite prog_bind_unfold. unfold lift. rewrite Hbad.
  do 3 f_equal. rewrite !concat_app. cbn [concat]. rewrite !app_nil_r.
  unfold cell_header. cbn [app]. rewrite <- !app_assoc. reflexivity.
Qed.

(** X8: a [metadata] that is present but is not a mapping (null, for one)
    makes the conversion fail with [AttributeError] once the first line is
    written: the output file holds the [Notebook:] line alone. *)
Theorem non_mapping_metadata_raises :
  forall (w : world) (ipynb txt text : str) (m : list (str * json)) (v : json),
    fs w !! ipynb = Some (File text) ->
    json_loads text = Some (JObj m) ->
    assoc (lit "metadata") m = Some v -> ~ is_mapping v ->
    isdir w txt = false ->
    encodable (basename ipynb) = true ->
    convert_notebook ipynb txt w
    = ({| fs := <[txt := File (lit "Notebook: " ++ basename ipynb ++ NL)]> (fs w);
          stdout := stdout w |}, Raise AttributeError).
Proof.
  intros w ipynb txt text m v Hfile Hload Hmd Hv Hdir Henc.
  rewrite convert_notebook_unfold. unfold read_text, json_load.
  rewrite Hfile, Hload. cbn [dict_get]. rewrite Hdir.
  rewrite write_notebook_unfold.
  rewrite out_write_ok
    by (rewrite !encodable_app, encodable_lit, Henc; reflexivity).
  cbn [dict_get]. rewrite Hmd, bind_Ok.
  change (default (JObj []) (Some v)) with v.
  assert (Hget : dict_get v (lit "kernelspec") (JObj []) = Raise AttributeError).
  { destruct v; try reflexivity. destruct Hv. now eexists. }
  rewrite Hget. cbn [app concat]. now rewrite app_nil_r.
Qed.

(** X9: a [cells] value that is not a list: a falsy one (an empty object, 0,
    false, an empty string) counts as no cells and the header block
    alone is written; a number or [true] cannot be iterated, and the
    conversion fails with [TypeError] once the header block is written. *)
Theorem cells_not_a_list :
  forall (w : world) (ipynb txt text : str) (m : list (str * json)) (ks v : json),
    fs w !! ipynb = Some (File text) ->
    json_loads text = Some (JObj m) ->
    has_kernelspec m ks ->
    assoc (lit "cells") m = Some v ->
    isdir w txt = false ->
    encodable (rendered_text (basename ipynb) ks []) = true ->
    (truthy v = false ->
     convert_notebook ipynb txt w
     = ({| fs := <[txt := File (rendered_text (basename ipynb) ks [])]> (fs w);
           stdout := stdout w |}, Ok tt))
    /\ (truthy v = true -> iter v = Raise TypeError ->
        convert_notebook ipynb txt w
        = ({| fs := <[txt := File (rendered_text (basename ipynb) ks [])]> (fs w);
              stdout := stdout w |}, Raise TypeError)).
Proof.
  intros w ipynb txt text m ks v Hfile Hload Hks Hcells Hdir Henc.
  unfold rendered_text in Henc |- *. rewrite encodable_concat in Henc.
  unfold rendered_chunks, header_chunks in Henc |- *.
  cbn [app cell_chunks forallb] in Henc |- *.
  apply andb_true_iff in Henc as [H1 Henc].
  apply andb_true_iff in Henc as [H2 _].
  assert (Hrun : convert_notebook ipynb txt w
    = (let '(out, r) :=
         match iter (py_or v (JArr [])) with
         | Ok items =>
             cells_loop 1 items
               [lit "Notebook: " ++ basename ipynb ++ NL;
                lit "Kernelspec: " ++ py_format ks ++ NL; CELL_SEPARATOR]
         | Raise e =>
             ([lit "Notebook: " ++ basename ipynb ++ NL;
               lit "Kernelspec: " ++ py_format ks ++ NL; CELL_SEPARATOR], Raise e)
         end in
       ({| fs := <[txt := File (concat out)]> (fs w); stdout := stdout w |}, r))).
  { rewrite convert_notebook_unfold. unfold read_text, json_load.
    rewrite Hfile, Hload. cbn [dict_get]. rewrite Hdir, Hcells.
    change (default (JArr []) (Some v)) with v.
    rewrite write_notebook_unfold, (out_write_ok _ _ H1), (kernelspec_value m ks Hks).
    rewrite (out_write_ok _ _ H2), (out_write_ok _ _ encodable_separator).
    reflexivity. }
  rewrite Hrun. unfold py_or. split.
  - intros ->. reflexivity.
  - intros -> ->. reflexivity.
Qed.

End FailingConversions.

(** ** The batch: skipping, rerunning, and what is left alone *)

Section BatchEdges.
Context `{Runtime}.

(** X10: without [--overwrite], notebooks whose output file exists are
    skipped: when standard output takes the notices, one notice per
    notebook is printed and the file system is left exactly as it was. *)
Theorem existing_outputs_are_skipped :
  forall (outdir : str) (paths : list str) (w : world),
    isdir w outdir = true ->
    (forall ipynb, ipynb ∈ paths -> path_exists w (target_path outdir ipynb) = true) ->
    (forall ipynb, ipynb ∈ paths -> printable (skip_line outdir ipynb) = true) ->
    files_loop outdir false paths w
    = ({| fs := fs w; stdout := stdout w ++ (skip_line outdir <$> paths) |}, Ok tt).
Proof.
  intros outdir paths. induction paths as [|ipynb rest IH]; intros w Hdir Hex Hprint.
  - simpl. rewrite app_nil_r. now destruct w.
  - rewrite files_loop_cons, (makedirs_dir _ _ Hdir).
    rewrite (Hex ipynb) by left. cbn [andb negb]. rewrite (Hprint ipynb) by left.
    rewrite IH.
    + cbn [printed fs stdout]. rewrite fmap_cons, <- app_assoc. reflexivity.
    + exact Hdir.
    + intros p Hp. unfold path_exists. cbn [printed fs]. apply Hex. now right.
    + intros p Hp. apply Hprint. now right.
Qed.

(** Once a conversion has succeeded, its output file exists and the
    output directory still is one. *)
Lemma converted_output_exists (outdir ipynb txt : str) (w1 w2 : world) :
  isdir w1 outdir = true ->
  convert_notebook ipynb txt w1 = (w2, Ok tt) ->
  isdir w2 outdir = true /\ path_exists w2 txt = true.
Proof.
  intros Hdir Hconv. split.
  - pose proof (convert_notebook_keeps_dir ipynb txt outdir w1 Hdir) as Hdir2.
    now rewrite Hconv in Hdir2.
  - rewrite convert_notebook_unfold in Hconv.
    destruct (read_text w1 ipynb); [|discriminate].
    destruct (json_load _); [|discriminate].
    destruct (dict_get _ _ _); [|discriminate].
    destruct (isdir w1 txt); [discriminate|].
    destruct (write_notebook _ _ _ _) as [out r]. injection Hconv as <- _.
    unfold path_exists. cbn [fs]. now rewrite lookup_insert_eq.
Qed.

Lemma files_loop_skip_one (outdir ipynb : str) (w : world) :
  isdir w outdir = true ->
  path_exists w (target_path outdir ipynb) = true ->
  printable (skip_line outdir ipynb) = true ->
  files_loop outdir false [ipynb] w = (printed (skip_line outdir ipynb) w, Ok tt).
Proof.
  intros Hdir Hex Hprint.
  rewrite files_loop_cons, (makedirs_dir _ _ Hdir), Hex, Hprint. reflexivity.
Qed.

(** X11: after a notebook has been converted and reported, a second run
    without [--overwrite] skips it and, when standard output takes the
    notice, leaves the file system as the first run left it. *)
Theorem rerun_skips_converted :
  forall (outdir : str) (ov : bool) (ipynb : str) (w w1 w2 : world),
    makedirs outdir w = (w1, Ok tt) ->
    path_exists w1 (target_path outdir ipynb) && negb ov = false ->
    convert_notebook ipynb (target_path outdir ipynb) w1 = (w2, Ok tt) ->
    printable (converted_line outdir ipynb) = true ->
    printable (skip_line outdir ipynb) = true ->
    files_loop outdir ov [ipynb] w = (printed (converted_line outdir ipynb) w2, Ok tt)
    /\ files_loop outdir false [ipynb] (printed (converted_line outdir ipynb) w2)
       = (printed (skip_line outdir ipynb) (printed (converted_line outdir ipynb) w2),
          Ok tt).
Proof.
  intros outdir ov ipynb w w1 w2 Hmk Hskip Hconv Hpc Hps. split.
  - rewrite files_loop_cons, Hmk, Hskip, Hconv, Hpc. reflexivity.
  - destruct (converted_output_exists outdir ipynb _ w1 w2
                (proj1 (makedirs_result _ _ _ Hmk)) Hconv) as [Hdir2 Hex].
    now apply files_loop_skip_one.
Qed.

(** X12: two notebooks of one batch whose names give the same output file:
    without [--overwrite] the first one is converted and the second one
    is skipped, so the file holds the first notebook. *)
Theorem colliding_outputs_keep_the_first :
  forall (outdir first second : str) (w w1 w2 : world),
    target_path outdir second = target_path outdir first ->
    makedirs outdir w = (w1, Ok tt) ->
    path_exists w1 (target_path outdir first) = false ->
    convert_notebook first (target_path outdir first) w1 = (w2, Ok tt) ->
    printable (converted_line outdir first) = true ->
    printable (skip_line outdir second) = true ->
    files_loop outdir false [first; second] w
    = (printed (skip_line outdir second) (printed (converted_line outdir first) w2),
       Ok tt)
    /\ fs (files_loop outdir false [first; second] w).1 !! target_path outdir second
       = fs w2 !! target_path outdir first.
Proof.
  intros outdir first second w w1 w2 Hsame Hmk Hnew Hconv Hpc Hps.
  assert (Hrun : files_loop outdir false [first; second] w
                 = (printed (skip_line outdir second)
                      (printed (converted_line outdir first) w2), Ok tt)).
  { rewrite files_loop_cons, Hmk, Hnew, Hconv, Hpc. cbn [andb].
    destruct (converted_output_exists outdir first _ w1 w2
                (proj1 (makedirs_result _ _ _ Hmk)) Hconv) as [Hdir2 Hex].
    apply files_loop_skip_one; [exact Hdir2| |exact Hps]. now rewrite Hsame. }
  split; [exact Hrun|]. rewrite Hrun, Hsame. reflexivity.
Qed.

(** What [os.makedirs] leaves alone: every path but the directory, its
    ancestors and the directory they start from. *)
Lemma add_entry_frame (parent name p : str) (m : gmap (list N) node) :
  p <> parent -> add_entry parent name m !! p = m !! p.
Proof.
  intros Hp. unfold add_entry. destruct (m !! parent) as [[?|?]|]; try reflexivity.
  now rewrite lookup_insert_ne.
Qed.

Lemma mkdir_chain_frame (p : str) (chain : list str) :
  p ∉ chain ->
  forall (parent : str) (w : world),
    p <> parent -> fs (mkdir_chain parent chain w).1 !! p = fs w !! p.
Proof.
  induction chain as [|d rest IH]; intros Hp parent w Hparent; [reflexivity|].
  apply not_elem_of_cons in Hp as [Hd Hrest]. cbn [mkdir_chain].
  destruct (fs w !! d) as [[?|?]|]; [reflexivity|now apply IH|].
  rewrite (IH Hrest) by exact Hd. cbn [fs].
  rewrite lookup_insert_ne by congruence. now apply add_entry_frame.
Qed.

Lemma makedirs_frame (outdir p : str) (w : world) :
  p <> outdir -> p <> anchor outdir -> p ∉ ancestors outdir ->
  fs (makedirs outdir w).1 !! p = fs w !! p.
Proof.
  intros Hout Hanchor Hanc. unfold makedirs.
  destruct (fs w !! outdir) as [[?|?]|]; try reflexivity.
  apply mkdir_chain_frame; [|exact Hanchor].
  rewrite elem_of_app, list_elem_of_singleton. tauto.
Qed.

Lemma files_loop_frame (outdir : str) (ov : bool) (paths : list str) (p : str) :
  p <> outdir -> p <> anchor outdir -> p ∉ ancestors outdir ->
  (forall ipynb, ipynb ∈ paths -> p <> target_path outdir ipynb) ->
  forall w : world, fs (files_loop outdir ov paths w).1 !! p = fs w !! p.
Proof.
  intros Hout Hanchor Hanc.
  induction paths as [|ipynb rest IH]; intros Htargets w; [reflexivity|].
  assert (Hrest : forall q, q ∈ rest -> p <> target_path outdir q)
    by (intros q Hq; apply Htargets; now right).
  assert (Hp : p <> target_path outdir ipynb) by (apply Htargets; now left).
  rewrite files_loop_cons.
  pose proof (makedirs_frame outdir p w Hout Hanchor Hanc) as Hmk.
  destruct (makedirs outdir w) as [w1 [[]|e]]; cbn [fst] in Hmk; [|exact Hmk].
  destruct (path_exists w1 (target_path outdir ipynb) && negb ov).
  - destruct (printable (skip_line outdir ipynb)); [|exact Hmk].
    rewrite (IH Hrest). exact Hmk.
  - pose proof (proj2 (convert_notebook_frame ipynb (target_path outdir ipynb) w1) p Hp)
      as Hconv.
    destruct (convert_notebook ipynb (target_path outdir ipynb) w1) as [w2 [[]|e]];
      cbn [fst] in Hconv.
    + destruct (printable (converted_line outdir ipynb)).
      * rewrite (IH Hrest). cbn [printed fs]. congruence.
      * destruct (printable (failed_line ipynb UnicodeEncodeError)).
        -- rewrite (IH Hrest). cbn [printed fs]. congruence.
        -- cbn [fst]. congruence.
    + destruct (printable (failed_line ipynb e)).
      * rewrite (IH Hrest). cbn [printed fs]. congruence.
      * cbn [fst]. congruence.
Qed.

(** X13: [main] writes to the output directory, to its ancestors and the
    directory they start from, and to the output files of the notebooks
    it found, and to nothing else: every other path, the notebooks
    included, keeps what it held. *)
Theorem main_touches_outputs_only :
  forall (a : args) (w : world) (p : str),
    p <> resolve_outdir a ->
    p <> anchor (resolve_outdir a) ->
    p ∉ ancestors (resolve_outdir a) ->
    (forall ipynb, ipynb ∈ find_ipynb_files w (path a) ->
                   p <> target_path (resolve_outdir a) ipynb) ->
    fs (main a w).1 !! p = fs w !! p.
Proof.
  intros a w p Hout Hanchor Hanc Htargets. rewrite main_unfold.
  destruct (find_ipynb_files w (path a)) as [|q qs] eqn:Hfind.
  - destruct (printable (not_found_line (path a))); reflexivity.
  - pose proof (files_loop_frame (resolve_outdir a) (overwrite a) (q :: qs) p
                  Hout Hanchor Hanc Htargets w) as Hframe.
    destruct (files_loop _ _ _ w) as [w' [[]|e]]; exact Hframe.
Qed.

(** X14: when notebooks are found and the output directory names a regular
    file, [os.makedirs] raises for the first notebook and the exception
    leaves [main]: nothing is converted, printed or written. *)
Theorem output_directory_clash_raises :
  forall (a : args) (w : world),
    find_ipynb_files w (path a) <> [] ->
    isfile w (resolve_outdir a) = true ->
    main a w = (w, Raise FileExistsError).
Proof.
  intros a w Hfound Hfile. rewrite main_unfold.
  destruct (find_ipynb_files w (path a)) as [|q qs]; [contradiction|].
  rewrite files_loop_cons. unfold makedirs, isfile in *.
  destruct (fs w !! resolve_outdir a) as [[?|?]|]; (reflexivity || discriminate).
Qed.

End BatchEdges.

(** ** The further properties on the sample inputs *)

Lemma unloadable_input_leaves_no_output_witness :
  convert_notebook (H := Sample.runtime) (lit "nbs/a.ipynb") (lit "out/a.txt")
    Sample.batch_world
  = (Sample.batch_world, Raise JSONDecodeError).
Proof.
  apply (proj1 (proj2 (unloadable_input_leaves_no_output (H := Sample.runtime)
                         Sample.batch_world (lit "nbs/a.ipynb") (lit "out/a.txt")))
           (lit "not json")).
  - vm_compute. reflexivity.
  - vm_compute. reflexivity.
Defined.

Lemma failing_cell_leaves_partial_output_witness :
  convert_notebook (H := Cases.runtime) (lit "broken.ipynb") (lit "out/broken.txt")
    Cases.broken_world
  = ({| fs := <[lit "out/broken.txt" :=
                  File (rendered_text (H := Cases.runtime)
                          (basename (Runtime := Cases.runtime) (lit "broken.ipynb"))
                          (JObj []) [nl_join [lit "Cell type: markdown";
                                              lit "-- Markdown --";
                                              lit "# Title"; lit "body"]]
                        ++ cell_header (S (length [Sample.markdown_cell])))]>
               (fs Cases.broken_world);
        stdout := stdout Cases.broken_world |}, Raise AttributeError).
Proof.
  apply (failing_cell_leaves_partial_output (H := Cases.runtime) Cases.broken_world
           (lit "broken.ipynb") (lit "out/broken.txt") Cases.broken_text
           Cases.broken_members (JObj []) [Sample.markdown_cell] [Sample.code_cell]
           (JInt 5)).
  - vm_compute. reflexivity.
  - vm_compute. reflexivity.
  - exact (kernelspec_no_metadata Cases.broken_members eq_refl).
  - reflexivity.
  - vm_compute. reflexivity.
  - reflexivity.
  - vm_compute. reflexivity.
  - vm_compute. reflexivity.
Defined.

Lemma non_mapping_metadata_raises_witness :
  convert_notebook (H := Cases.runtime) (lit "nometa.ipynb") (lit "out/nometa.txt")
    Cases.broken_world
  = ({| fs := <[lit "out/nometa.txt" :=
                  File (lit "Notebook: "
                        ++ basename (Runtime := Cases.runtime) (lit "nometa.ipynb")
                        ++ NL)]> (fs Cases.broken_world);
        stdout := stdout Cases.broken_world |}, Raise AttributeError).
Proof.
  apply (non_mapping_metadata_raises (H := Cases.runtime) Cases.broken_world
           (lit "nometa.ipynb") (lit "out/nometa.txt") Cases.null_metadata_text
           Cases.null_metadata_members JNull).
  - vm_compute. reflexivity.
  - vm_compute. reflexivity.
  - reflexivity.
  - intros [d [=]].
  - vm_compute. reflexivity.
  - vm_compute. reflexivity.
Defined.

Lemma cells_not_a_list_witness :
  convert_notebook (H := Cases.runtime) (lit "object.ipynb") (lit "out/object.txt")
    Cases.broken_world
  = ({| fs := <[lit "out/object.txt" :=
                  File (rendered_text (H := Cases.runtime)
                          (basename (Runtime := Cases.runtime) (lit "object.ipynb"))
                          (JObj []) [])]> (fs Cases.broken_world);
        stdout := stdout Cases.broken_world |}, Ok tt).
Proof.
  apply (proj1 (cells_not_a_list (H := Cases.runtime) Cases.broken_world
                  (lit "object.ipynb") (lit "out/object.txt") Cases.object_cells_text
                  Cases.object_cells_members (JObj []) (JObj [])
                  ltac:(vm_compute; reflexivity)
                  ltac:(vm_compute; reflexivity)
                  (kernelspec_no_metadata Cases.object_cells_members eq_refl)
                  eq_refl
                  ltac:(vm_compute; reflexivity)
                  ltac:(vm_compute; reflexivity))).
  reflexivity.
Defined.

Lemma existing_outputs_are_skipped_witness :
  files_loop (H := Sample.runtime) (lit "out") false [lit "nbs/b.ipynb"]
    Cases.after_first_run
  = ({| fs := fs Cases.after_first_run;
        stdout := stdout Cases.after_first_run
                  ++ (skip_line (H := Sample.runtime) (lit "out")
                        <$> [lit "nbs/b.ipynb"]) |}, Ok tt).
Proof.
  apply (existing_outputs_are_skipped (H := Sample.runtime)).
  - vm_compute. reflexivity.
  - intros ipynb Hin. apply list_elem_of_singleton in Hin. subst ipynb.
    vm_compute. reflexivity.
  - intros ipynb Hin. apply list_elem_of_singleton in Hin. subst ipynb.
    vm_compute. reflexivity.
Defined.

Lemma rerun_skips_converted_witness :
  files_loop (H := Sample.runtime) (lit "out") false [lit "nbs/b.ipynb"]
    (printed (converted_line (H := Sample.runtime) (lit "out") (lit "nbs/b.ipynb"))
       (convert_notebook (H := Sample.runtime) (lit "nbs/b.ipynb")
          (target_path (H := Sample.runtime) (lit "out") (lit "nbs/b.ipynb"))
          (makedirs (H := Sample.runtime) (lit "out") Sample.batch_world).1).1)
  = (printed (skip_line (H := Sample.runtime) (lit "out") (lit "nbs/b.ipynb"))
       (printed (converted_line (H := Sample.runtime) (lit "out") (lit "nbs/b.ipynb"))
          (convert_notebook (H := Sample.runtime) (lit "nbs/b.ipynb")
             (target_path (H := Sample.runtime) (lit "out") (lit "nbs/b.ipynb"))
             (makedirs (H := Sample.runtime) (lit "out") Sample.batch_world).1).1),
     Ok tt).
Proof.
  apply (proj2 (rerun_skips_converted (H := Sample.runtime) (lit "out") false
                  (lit "nbs/b.ipynb") Sample.batch_world
                  (makedirs (H := Sample.runtime) (lit "out") Sample.batch_world).1
                  (convert_notebook (H := Sample.runtime) (lit "nbs/b.ipynb")
                     (target_path (H := Sample.runtime) (lit "out") (lit "nbs/b.ipynb"))
                     (makedirs (H := Sample.runtime) (lit "out") Sample.batch_world).1).1
                  ltac:(vm_compute; reflexivity)
                  ltac:(vm_compute; reflexivity)
                  ltac:(vm_compute; reflexivity)
                  ltac:(vm_compute; reflexivity)
                  ltac:(vm_compute; reflexivity))).
Defined.

Lemma colliding_outputs_keep_the_first_witness :
  fs (files_loop (H := Sample.runtime) (lit "out") false
        [lit "nbs/b.ipynb"; lit "elsewhere/b.ipynb"] Sample.batch_world).1
    !! target_path (H := Sample.runtime) (lit "out") (lit "elsewhere/b.ipynb")
  = fs (convert_notebook (H := Sample.runtime) (lit "nbs/b.ipynb")
          (target_path (H := Sample.runtime) (lit "out") (lit "nbs/b.ipynb"))
          (makedirs (H := Sample.runtime) (lit "out") Sample.batch_world).1).1
      !! target_path (H := Sample.runtime) (lit "out") (lit "nbs/b.ipynb").
Proof.
  apply (proj2 (colliding_outputs_keep_the_first (H := Sample.runtime) (lit "out")
                  (lit "nbs/b.ipynb") (lit "elsewhere/b.ipynb") Sample.batch_world
                  (makedirs (H := Sample.runtime) (lit "out") Sample.batch_world).1
                  (convert_notebook (H := Sample.runtime) (lit "nbs/b.ipynb")
                     (target_path (H := Sample.runtime) (lit "out") (lit "nbs/b.ipynb"))
                     (makedirs (H := Sample.runtime) (lit "out") Sample.batch_world).1).1
                  ltac:(vm_compute; reflexivity)
                  ltac:(vm_compute; reflexivity)
                  ltac:(vm_compute; reflexivity)
                  ltac:(vm_compute; reflexivity)
                  ltac:(vm_compute; reflexivity)
                  ltac:(vm_compute; reflexivity))).
Defined.

Lemma main_touches_outputs_only_witness :
  fs (main (H := Sample.runtime) Sample.batch_args Sample.batch_world).1
    !! lit "nbs/b.ipynb"
  = fs Sample.batch_world !! lit "nbs/b.ipynb".
Proof.
  apply (main_touches_outputs_only (H := Sample.runtime)).
  - vm_compute. discriminate.
  - vm_compute. discriminate.
  - intros Hin. apply list_elem_of_In in Hin. exact Hin.
  - intros ipynb Hin. apply list_elem_of_In in Hin. vm_compute in Hin.
    destruct Hin as [<-|[<-|[<-|[]]]]; vm_compute; discriminate.
Defined.

Lemma output_directory_clash_raises_witness :
  main (H := Sample.runtime) Sample.clash_args Sample.batch_world
  = (Sample.batch_world, Raise FileExistsError).
Proof.
  apply (output_directory_clash_raises (H := Sample.runtime)).
  - vm_compute. discriminate.
  - vm_compute. reflexivity.
Defined.
